(** * car_poster_generator: specification extractor and poster composer

    A shallow embedding of [src/car_poster_generator.py].
    - Python strings are lists of Unicode code points.
    - Dictionaries are finite maps ([gmap]) from strings to strings.
    - The canvas ([ImageDraw]) is the list of drawing commands issued on it,
      in order; Pillow's pixel semantics of a filled rectangle is [covers].
    - The [try/except] of the extractor is an error monad.
    - The libraries the program calls ([str.lower], [re], [urljoin], font
      metrics, image download) are interfaces (type classes); floating point
      is the kernel's binary64. *)

From Stdlib Require Import ZArith List Ascii String Floats Uint63 Lia.
From stdpp Require Import gmap list.

Open Scope Z_scope.

(** ** Python strings *)

Definition str := list N.

(** An ASCII literal of the source as a Python string. *)
Definition py (s : string) : str := N_of_ascii <$> list_ascii_of_string s.

Definition LF : N := 10.
Definition CR : N := 13.
Definition SP : N := 32.
(** U+2026 HORIZONTAL ELLIPSIS, the one character of the literal ["…"]. *)
Definition ELLIPSIS : N := 8230.

(** The built-in [len]. *)
Definition len {A} (s : list A) : Z := Z.of_nat (length s).

(** Truth value of a string: [if v], [not v]. *)
Definition truthy (s : str) : bool :=
  match s with [] => false | _ => true end.

(** [str.isspace] on one code point: the characters [str.strip()] removes. *)
Definition isspace (c : N) : bool :=
  ((9 <=? c) && (c <=? 13) || (28 <=? c) && (c <=? 32) || (c =? 133) || (c =? 160)
   || (c =? 5760) || (8192 <=? c) && (c <=? 8202) || (c =? 8232) || (c =? 8233)
   || (c =? 8239) || (c =? 8287) || (c =? 12288))%N.

Fixpoint lstrip (s : str) : str :=
  match s with
  | c :: s' => if isspace c then lstrip s' else s
  | [] => []
  end.

Definition rstrip (s : str) : str := rev (lstrip (rev s)).

Definition strip (s : str) : str := rstrip (lstrip s).

(** [s.replace(a, b)] for one-character [a] and [b]. *)
Definition replace (a b : N) (s : str) : str :=
  (fun c => if (c =? a)%N then b else c) <$> s.

(** The slice [s[:n]]; a negative [n] counts from the end. *)
Definition slice_to (n : Z) (s : str) : str :=
  if 0 <=? n then take (Z.to_nat n) s
  else take (length s - Z.to_nat (- n))%nat s.

Fixpoint startswith (p s : str) : bool :=
  match p, s with
  | [], _ => true
  | a :: p', b :: s' => (a =? b)%N && startswith p' s'
  | _ :: _, [] => false
  end.

Definition endswith (p s : str) : bool := startswith (rev p) (rev s).

(** [sub in s]. *)
Fixpoint contains (sub s : str) : bool :=
  startswith sub s || match s with [] => false | _ :: s' => contains sub s' end.

(** [a or b] on optional strings ([None] and [""] are false). *)
Definition or_else (a b : option str) : option str :=
  match a with
  | Some (_ :: _) => a
  | _ => b
  end.

Definition truthy_opt (a : option str) : bool :=
  match a with Some s => truthy s | None => false end.

(** [f"{a}"]: [None] prints as the word None. *)
Definition fmt (a : option str) : str :=
  match a with Some s => s | None => py "None" end.

(** ** Case mapping

    [str.lower] and [str.upper] follow the Unicode tables; the program relies
    on them for ASCII text only, where they are the ASCII mappings. *)

Definition is_ascii (c : N) : bool := (c <? 128)%N.

Definition ascii_lower (c : N) : N :=
  if ((65 <=? c) && (c <=? 90))%N then (c + 32)%N else c.

Definition ascii_upper (c : N) : N :=
  if ((97 <=? c) && (c <=? 122))%N then (c - 32)%N else c.

Class Unicode := {
  lower : str -> str;
  upper : str -> str;
  lower_ascii : forall s, forallb is_ascii s = true -> lower s = ascii_lower <$> s;
  upper_ascii : forall s, forallb is_ascii s = true -> upper s = ascii_upper <$> s
}.

(** The ASCII-only case mapping: every other character is left alone. *)
#[export] Instance ascii_unicode : Unicode | 100 := {|
  lower := fmap ascii_lower;
  upper := fmap ascii_upper;
  lower_ascii := fun s _ => eq_refl;
  upper_ascii := fun s _ => eq_refl
|}.

(** ** Value sanitizer: [PosterGenerator._sanitize_spec_value] *)

(** The value after [str(v).strip().replace("\n", " ").replace("\r", " ")]. *)
Definition normalized (v : str) : str := replace CR SP (replace LF SP (strip v)).

Definition _sanitize_spec_value (v : option str) (max_len : Z) : str :=
  match v with
  | None => []
  | Some v =>
      if negb (truthy v) then []
      else
        let v := normalized v in
        if len v >? max_len then slice_to (max_len - 1) v ++ [ELLIPSIS] else v
  end.

(** ** Interfaces of the libraries the extractor calls *)

(** A match object of [re]: [m.group(0)] is the matched text, [m.group(i)] is
    [None] for a group that took no part in the match. *)
Record Match := { whole : str; groups : nat -> option str }.

Definition group (m : Match) (i : nat) : option str :=
  match i with O => Some (whole m) | _ => groups m i end.

(** [re.search(pattern, text)] ([true]: with [re.I]) and
    [re.match(pattern, text)]; [None] when there is no match. *)
Class Regex := {
  re_search : str -> str -> bool -> option Match;
  re_match : str -> str -> option Match
}.

(** Exceptions: [Raise] is a raised Python exception. *)
Inductive exc (A : Type) : Type :=
| Return (a : A)
| Raise.
Arguments Return {A} a.
Arguments Raise {A}.

#[export] Instance exc_ret : MRet exc := fun A a => Return a.
#[export] Instance exc_bind : MBind exc := fun A B k m =>
  match m with Return a => k a | Raise => Raise end.

(** [urllib.parse.urljoin(base, url)]; it raises [ValueError] on a reference
    it cannot split (for one, an unmatched bracket in the host part). *)
Class Urllib := { urljoin : str -> str -> exc str }.

(** The parsed page, as the extractor reads it from BeautifulSoup:
    - [soup_tables]: for each [table] of [soup.find_all('table')], for each
      [row] of [table.find_all('tr')], the texts [get_text(strip=True)] of the
      cells [row.find_all(['td', 'th'])];
    - [soup_text]: [soup.get_text(separator=' ', strip=True)];
    - [soup_imgs]: the [src] attribute of each [soup.find_all('img', src=True)],
      in document order. *)
Record Soup := {
  soup_tables : list (list (list str));
  soup_text : str;
  soup_imgs : list str
}.

(** ** Specification extractor: [CarSpecScraper.get_model_specs] *)

Section Extractor.
Context {U : Unicode} {R : Regex} {L : Urllib}.

Definition REJECT : list str :=
  py <$> ["coupe"; "roadster"; "submodel"; "belonging"; "vers"; "gen."]%string.

(** The nested helper [_ok_spec_val(v, max_len=35)]. *)
Definition _ok_spec_val (v : str) (max_len : Z) : option str :=
  let v := slice_to max_len (replace LF SP (strip v)) in
  if negb (truthy v) || (len v >? max_len) then None
  else if existsb (fun x => contains x (lower v)) REJECT then None
  else Some v.

(** [if _ok_spec_val(value): specs[key] = _ok_spec_val(value)] *)
Definition store_if_ok (key value : str) (specs : gmap str str) : gmap str str :=
  match _ok_spec_val value 35 with
  | Some v => if truthy v then <[key := v]> specs else specs
  | None => specs
  end.

Definition YEAR_ROW_PATTERN : str := py "^[\d\s\-]+$".

(** The body of the loop over the rows of a table. *)
Definition scan_row (specs : gmap str str) (cells : list str) : gmap str str :=
  match cells with
  | c0 :: c1 :: _ =>
      let label := lower c0 in
      let value := c1 in
      if contains (py "engine") label || contains (py "displacement") label then
        store_if_ok (py "engine") value specs
      else if contains (py "power") label || contains (py "horsepower") label
              || contains (py "hp") label then
        store_if_ok (py "power") value specs
      else if contains (py "torque") label then
        store_if_ok (py "torque") value specs
      else if contains (py "weight") label || contains (py "mass") label then
        store_if_ok (py "weight") value specs
      else if contains (py "acceleration") label || contains (py "0-100") label
              || contains (py "0-60") label then
        store_if_ok (py "acceleration_0_100") value specs
      else if contains (py "top speed") label || contains (py "maximum speed") label then
        store_if_ok (py "top_speed") value specs
      else if contains (py "year") label || contains (py "production") label then
        if truthy_opt (_ok_spec_val value 20)
           && bool_decide (is_Some (re_match YEAR_ROW_PATTERN (slice_to 20 (strip value))))
        then <[py "year" := slice_to 20 (strip value)]> specs
        else specs
      else specs
  | _ => specs
  end.

(** Tier 1: [for table in tables: for row in table.find_all('tr'): ...]. *)
Definition scan_tables (specs : gmap str str) (tables : list (list (list str))) : gmap str str :=
  foldl (foldl scan_row) specs tables.

(** [not specs.get(key)] *)
Definition missing (key : str) (specs : gmap str str) : bool :=
  negb (truthy_opt (specs !! key)).

Definition ENGINE_PATTERN : str :=
  py "(\d+\.?\d*)\s*L(?:\s*TFSI|\s*TDI|\s*V6|\s*V8|\s*I4)?".
Definition POWER_PATTERN : str := py "(\d+)\s*(?:HP|hp|PS|ps|kW|kw)".
Definition TORQUE_PATTERN : str := py "(\d+)\s*Nm|(\d+)\s*lb-ft|(\d+)\s*lb\.ft".
Definition WEIGHT_PATTERN : str := py "(\d{3,5})\s*kg|(\d{3,5})\s*lbs?".
Definition ACCEL_PATTERN : str :=
  py "0-100[^\d]*(\d+\.?\d*)\s*s(?:ec)?|0-60[^\d]*(\d+\.?\d*)\s*s(?:ec)?".
Definition SPEED_PATTERN : str :=
  py "(?:top|max(?:imum)?)\s*speed[^\d]*(\d+)\s*km/h|(\d+)\s*km/h.*top".
Definition YEAR_PATTERN : str := py "(\d{4})\s*-\s*(\d{4})|(\d{4})".

Definition fallback_engine (text : str) (specs : gmap str str) : gmap str str :=
  if missing (py "engine") specs then
    match re_search ENGINE_PATTERN text true with
    | Some m => <[py "engine" := strip (whole m)]> specs
    | None => specs
    end
  else specs.

Definition fallback_power (text : str) (specs : gmap str str) : gmap str str :=
  if missing (py "power") specs then
    match re_search POWER_PATTERN text true with
    | Some m => <[py "power" := fmt (group m 1) ++ py " HP"]> specs
    | None => specs
    end
  else specs.

Definition fallback_torque (text : str) (specs : gmap str str) : gmap str str :=
  if missing (py "torque") specs then
    match re_search TORQUE_PATTERN text true with
    | Some m =>
        if truthy_opt (group m 1)
        then <[py "torque" := fmt (group m 1) ++ py " Nm"]> specs
        else <[py "torque" := fmt (or_else (group m 2) (group m 3)) ++ py " lb-ft"]> specs
    | None => specs
    end
  else specs.

Definition fallback_weight (text : str) (specs : gmap str str) : gmap str str :=
  if missing (py "weight") specs then
    match re_search WEIGHT_PATTERN text true with
    | Some m =>
        if truthy_opt (group m 1)
        then <[py "weight" := fmt (group m 1) ++ py " kg"]> specs
        else <[py "weight" := fmt (group m 2) ++ py " lbs"]> specs
    | None => specs
    end
  else specs.

Definition fallback_acceleration (text : str) (specs : gmap str str) : gmap str str :=
  if missing (py "acceleration_0_100") specs then
    match re_search ACCEL_PATTERN text true with
    | Some m =>
        <[py "acceleration_0_100" := fmt (or_else (group m 1) (group m 2)) ++ py " s"]> specs
    | None => specs
    end
  else specs.

Definition fallback_top_speed (text : str) (specs : gmap str str) : gmap str str :=
  if missing (py "top_speed") specs then
    match re_search SPEED_PATTERN text true with
    | Some m =>
        <[py "top_speed" := fmt (or_else (group m 1) (group m 2)) ++ py " km/h"]> specs
    | None => specs
    end
  else specs.

(** The third group took part in every match in which the second did not. *)
Definition fallback_year (model_url text : str) (specs : gmap str str) : gmap str str :=
  if missing (py "year") specs then
    match re_search YEAR_PATTERN (model_url ++ py " " ++ text) false with
    | Some m =>
        if truthy_opt (group m 2)
        then <[py "year" := fmt (group m 1) ++ py "-" ++ fmt (group m 2)]> specs
        else <[py "year" := fmt (group m 3)]> specs
    | None => specs
    end
  else specs.

(** Tier 2: the regex fallbacks, in the order of the source. *)
Definition regex_fallback (model_url text : str) (specs : gmap str str) : gmap str str :=
  fallback_year model_url text
    (fallback_top_speed text
       (fallback_acceleration text
          (fallback_weight text
             (fallback_torque text
                (fallback_power text
                   (fallback_engine text specs)))))).

(** [not src or 'logo' in src.lower() or 'icon' in src.lower() or 'pixel' in src.lower()] *)
Definition skip_image (src : str) : bool :=
  negb (truthy src) || contains (py "logo") (lower src)
  || contains (py "icon") (lower src) || contains (py "pixel") (lower src).

(** Tier 3, first loop: the first image that is no logo, icon or pixel and
    resolves to an [http] URL; [break] after the first hit. *)
Fixpoint main_image (model_url : str) (imgs : list str) (specs : gmap str str)
  : exc (gmap str str) :=
  match imgs with
  | [] => Return specs
  | img :: rest =>
      let src := strip img in
      if skip_image src then main_image model_url rest specs
      else
        full_img_url ← urljoin model_url src;
        if contains (py "automobile-catalog.com") full_img_url
           || startswith (py "http") full_img_url
        then Return (<[py "image_url" := full_img_url]> specs)
        else main_image model_url rest specs
  end.

(** Tier 3, second loop: any image whose source has more than 10 characters. *)
Fixpoint any_image (model_url : str) (imgs : list str) (specs : gmap str str)
  : exc (gmap str str) :=
  match imgs with
  | [] => Return specs
  | img :: rest =>
      let src := strip img in
      if truthy src && (len src >? 10) then
        full_img_url ← urljoin model_url src;
        Return (<[py "image_url" := full_img_url]> specs)
      else any_image model_url rest specs
  end.

Definition image_reference (model_url : str) (imgs : list str) (specs : gmap str str)
  : exc (gmap str str) :=
  specs ← main_image model_url imgs specs;
  if bool_decide (is_Some (specs !! py "image_url")) then Return specs
  else any_image model_url imgs specs.

(** The body of the [try] block, from the parsed page on. *)
Definition extract (model_url : str) (soup : Soup) : exc (gmap str str) :=
  let specs := scan_tables ∅ (soup_tables soup) in
  let specs := regex_fallback model_url (soup_text soup) specs in
  image_reference model_url (soup_imgs soup) specs.

(** [get_model_specs], once the page is fetched and parsed:
    [return specs if specs else None], and [except Exception: return None]. *)
Definition get_model_specs (model_url : str) (soup : Soup) : option (gmap str str) :=
  match extract model_url soup with
  | Return specs => if bool_decide (specs = ∅) then None else Some specs
  | Raise => None
  end.

End Extractor.

(** ** Floating point

    Python's [float] is IEEE 754 binary64, as are the kernel's floats.
    Pixel coordinates are far below [2^53], where [float_of_int] is exact. *)

Definition float_of_int (z : Z) : float :=
  if z <? 0 then PrimFloat.opp (PrimFloat.of_uint63 (Uint63.of_Z (- z)))
  else PrimFloat.of_uint63 (Uint63.of_Z z).

(** [int(f)]: truncation towards zero (of a finite [f]). *)
Definition int_of_float (f : float) : Z :=
  match Prim2SF f with
  | S754_finite s m e =>
      let mag := if 0 <=? e then Z.shiftl (Z.pos m) e else Z.shiftr (Z.pos m) (- e) in
      if s then - mag else mag
  | _ => 0
  end.

(** [a / b] on integers; [ZeroDivisionError] when [b] is 0. *)
Definition true_div (a b : Z) : exc float :=
  if b =? 0 then Raise else Return (PrimFloat.div (float_of_int a) (float_of_int b)).

(** The built-in [min(a, b, c)] on floats: the first of the smallest. *)
Definition fmin (a b : float) : float := if PrimFloat.ltb b a then b else a.
Definition min3 (a b c : float) : float := fmin (fmin a b) c.

(** The literal [0.35]: the binary64 number nearest to it. *)
Definition f_0_35 : float := 0x1.6666666666666p-2%float.

(** ** Reference tables *)

Definition BRAND_COUNTRY : gmap str str :=
  list_to_map
    (((fun b => (py b, py "DE")) <$>
        ["audi"; "bmw"; "mercedes"; "mercedes-benz"; "porsche"; "volkswagen"; "vw";
         "opel"; "maybach"; "smart"]%string)
     ++ ((fun b => (py b, py "IT")) <$>
        ["ferrari"; "lamborghini"; "maserati"; "fiat"; "alfa romeo"; "lancia";
         "pagani"]%string)
     ++ [(py "renault", py "FR"); (py "peugeot", py "FR");
         (py "citro" ++ [235%N] ++ py "n", py "FR"); (py "citroen", py "FR");
         (py "bugatti", py "FR")]
     ++ ((fun b => (py b, py "GB")) <$>
        ["bentley"; "rolls-royce"; "aston martin"; "jaguar"; "land rover"; "mclaren";
         "lotus"; "mini"; "mg"]%string)
     ++ ((fun b => (py b, py "US")) <$>
        ["ford"; "chevrolet"; "tesla"; "dodge"; "jeep"; "cadillac"; "gmc"; "buick";
         "chrysler"]%string)
     ++ ((fun b => (py b, py "JP")) <$>
        ["toyota"; "honda"; "nissan"; "mazda"; "subaru"; "lexus"; "infiniti"; "acura";
         "suzuki"; "mitsubishi"]%string)
     ++ ((fun b => (py b, py "KR")) <$> ["hyundai"; "kia"; "genesis"; "ssangyong"]%string)
     ++ ((fun b => (py b, py "SE")) <$> ["volvo"; "koenigsegg"; "saab"]%string)
     ++ ((fun b => (py b, py "CZ")) <$> ["skoda"; "tatra"]%string)
     ++ [(py "dacia", py "RO")]
     ++ ((fun b => (py b, py "ES")) <$> ["seat"; "cupra"]%string)
     ++ ((fun b => (py b, py "IN")) <$> ["tata"; "mahindra"]%string)).

(** The four pattern kinds ['h'], ['v'], ['circle'], ['cross'] with their data. *)
Inductive FlagDefinition :=
| Kind_h (colors : list str)
| Kind_v (colors : list str)
| Kind_circle (bg_color circle_color : str)
| Kind_cross (bg_color cross_color : str).

Definition stripes3 (a b c : string) : list str := [py a; py b; py c].

Definition FLAG_DEFINITIONS : gmap str FlagDefinition :=
  list_to_map
    [(py "DE", Kind_h (stripes3 "#000000" "#DD0000" "#FFCE00"));
     (py "AT", Kind_h (stripes3 "#ED2939" "#FFFFFF" "#ED2939"));
     (py "IT", Kind_v (stripes3 "#009246" "#FFFFFF" "#CE2B37"));
     (py "FR", Kind_v (stripes3 "#002395" "#FFFFFF" "#ED2939"));
     (py "JP", Kind_circle (py "#FFFFFF") (py "#BC002D"));
     (py "US", Kind_h (take 13 (concat (replicate 7 [py "#B22234"; py "#FFFFFF"]))));
     (py "GB", Kind_h (stripes3 "#012169" "#FFFFFF" "#C8102E"));
     (py "KR", Kind_h (stripes3 "#FFFFFF" "#003478" "#C60C30"));
     (py "SE", Kind_cross (py "#006AA7") (py "#FECC00"));
     (py "CZ", Kind_h (stripes3 "#11457E" "#FFFFFF" "#D7141A"));
     (py "RO", Kind_v (stripes3 "#002B7F" "#FCD116" "#CE1126"));
     (py "ES", Kind_h (stripes3 "#C60B1E" "#FFC400" "#C60B1E"));
     (py "IN", Kind_h (stripes3 "#FF9933" "#FFFFFF" "#138808"));
     (py "CH", Kind_h [py "#FF0000"; py "#FFFFFF"]);
     (py "NL", Kind_h (stripes3 "#AE1C28" "#FFFFFF" "#21468B"));
     (py "BE", Kind_v (stripes3 "#000000" "#FDDA24" "#ED2939"));
     (py "PL", Kind_h [py "#FFFFFF"; py "#DC143C"]);
     (py "RU", Kind_h (stripes3 "#FFFFFF" "#0039A6" "#D52B1E"))].

Arguments BRAND_COUNTRY : simpl never.
Arguments FLAG_DEFINITIONS : simpl never.

(** ** The canvas *)

(** A font as [_get_font(size, bold)] asks for it. *)
Record Font := { font_size : Z; font_bold : bool }.

(** The calls on [ImageDraw] and [Image.paste], as issued. A rectangle and an
    ellipse are given by their two corner points. *)
Inductive DrawOp :=
| Line (x0 y0 x1 y1 : Z) (fill : str) (width : Z)
| Text (x y : Z) (text fill : str) (font : Font)
| Rectangle (x0 y0 x1 y1 : Z) (fill : str)
| Ellipse (x0 y0 x1 y1 : Z) (fill : str)
| Paste (x y w h : Z).

(** Pillow: [draw.textbbox((0, 0), text, font)] as (left, top, right, bottom),
    and the pixels the rasterizer sets for an ellipse in a bounding box. *)
Class Pillow := {
  textbbox : Font -> str -> Z * Z * Z * Z;
  ellipse_mask : Z -> Z -> Z -> Z -> Z * Z -> bool
}.

(** The image download: [requests.get(image_url)] and [Image.open]; the size
    of the decoded image, or [None] when the request or the decoding failed. *)
Class Web := { fetch_image : str -> option (Z * Z) }.

(** A filled [draw.rectangle([x0, y0, x1, y1])] sets every pixel of the box,
    both corner points included. *)
Definition in_box (x0 y0 x1 y1 : Z) (p : Z * Z) : bool :=
  (x0 <=? p.1) && (p.1 <=? x1) && (y0 <=? p.2) && (p.2 <=? y1).

Section Canvas.
Context {P : Pillow}.

(** The pixels a rectangle or an ellipse sets. *)
Definition covers (op : DrawOp) (p : Z * Z) : bool :=
  match op with
  | Rectangle x0 y0 x1 y1 _ => in_box x0 y0 x1 y1 p
  | Ellipse x0 y0 x1 y1 _ => in_box x0 y0 x1 y1 p && ellipse_mask x0 y0 x1 y1 p
  | _ => false
  end.

Definition painted (ops : list DrawOp) (p : Z * Z) : bool := existsb (fun op => covers op p) ops.

End Canvas.

(** [Image.new("RGB", (width, height))]: Pillow raises [ValueError] for a
    negative width or height. *)
Definition new_image (width height : Z) : exc unit :=
  if (width <? 0) || (height <? 0) then Raise else Return ().

(** [draw.rectangle([x0, y0, x1, y1], fill)]: Pillow raises [ValueError] for a
    box whose corners are not in order ([x1 < x0] or [y1 < y0]). *)
Definition rectangle (x0 y0 x1 y1 : Z) (fill : str) : exc (list DrawOp) :=
  if (x1 <? x0) || (y1 <? y0) then Raise else Return [Rectangle x0 y0 x1 y1 fill].

(** The pixels of the target rectangle of width [w] and height [h] at [(x, y)]. *)
Definition in_rect (x y w h : Z) (p : Z * Z) : bool :=
  (x <=? p.1) && (p.1 <? x + w) && (y <=? p.2) && (p.2 <? y + h).

(** ** Flag renderer: [PosterGenerator._draw_country_flag] *)

Section FlagRenderer.
Context {U : Unicode}.

(** [int(o + i * stripe)] *)
Definition band_edge (o : Z) (i : nat) (stripe : float) : Z :=
  int_of_float (PrimFloat.add (float_of_int o)
                  (PrimFloat.mul (float_of_int (Z.of_nat i)) stripe)).

Definition draw_flag (definition : FlagDefinition) (x y w h : Z) : exc (list DrawOp) :=
  match definition with
  | Kind_h colors =>
      stripe_h ← true_div h (len colors);
      Return (imap (fun i color =>
                      let y1 := band_edge y i stripe_h in
                      let y2 := band_edge y (i + 1) stripe_h in
                      Rectangle x y1 (x + w) y2 color) colors)
  | Kind_v colors =>
      stripe_w ← true_div w (len colors);
      Return (imap (fun i color =>
                      let x1 := band_edge x i stripe_w in
                      let x2 := band_edge x (i + 1) stripe_w in
                      Rectangle x1 y x2 (y + h) color) colors)
  | Kind_circle bg_color circle_color =>
      let cx := x + w / 2 in
      let cy := y + h / 2 in
      let r := int_of_float (PrimFloat.mul (float_of_int (Z.min w h)) f_0_35) in
      Return [Rectangle x y (x + w) (y + h) bg_color;
              Ellipse (cx - r) (cy - r) (cx + r) (cy + r) circle_color]
  | Kind_cross bg_color cross_color =>
      let bar_w := Z.max 2 (w / 5) in
      let bar_h := Z.max 2 (h / 5) in
      let v_x := x + (w - bar_w) / 2 in
      let h_y := y + (h - bar_h) / 2 in
      Return [Rectangle x y (x + w) (y + h) bg_color;
              Rectangle v_x y (v_x + bar_w) (y + h) cross_color;
              Rectangle x h_y (x + w) (h_y + bar_h) cross_color]
  end.

Definition _draw_country_flag (country_code : option str) (x y w h : Z)
  : exc (list DrawOp) :=
  let country_code := slice_to 2 (upper (default [] country_code)) in
  if negb (truthy country_code) then Return []
  else match FLAG_DEFINITIONS !! country_code with
       | None => Return []
       | Some definition => draw_flag definition x y w h
       end.

End FlagRenderer.

(** ** Poster composer: [PosterGenerator.generate_poster] *)

Record PosterGenerator := { width : Z; height : Z; margin : Z; border_width : Z }.

(** [PosterGenerator(width=1200, height=1600)] *)
Definition new_generator (width height : Z) : PosterGenerator :=
  {| width := width; height := height; margin := 60; border_width := 2 |}.

Inductive Format := JPEG | PNG.

(** The result of a run: what was drawn, in order, and how it is saved. *)
Record Poster := { canvas : list DrawOp; format : Format }.

Section Composer.
Context {U : Unicode} {P : Pillow} {W : Web}.
Variable self : PosterGenerator.

Definition brand_font : Font := {| font_size := 64; font_bold := true |}.
Definition model_font : Font := {| font_size := 88; font_bold := true |}.
Definition label_font : Font := {| font_size := 26; font_bold := true |}.
Definition value_font : Font := {| font_size := 24; font_bold := false |}.

Definition text_width (font : Font) (text : str) : Z :=
  let '(x0, _, x1, _) := textbbox font text in x1 - x0.
Definition text_height (font : Font) (text : str) : Z :=
  let '(_, y0, _, y1) := textbbox font text in y1 - y0.

(** [{k: v for k, v in specs.items() if not k.startswith("_") and k != "image_url"}] *)
Definition display_specs (specs : gmap str str) : gmap str str :=
  filter (fun kv => startswith (py "_") kv.1 = false /\ kv.1 <> py "image_url") specs.

Definition draw_borders : list DrawOp :=
  let border_x := margin self in
  [Line border_x (margin self) border_x (height self - margin self) (py "#d0d0d0") 1;
   Line (width self - border_x) (margin self) (width self - border_x)
        (height self - margin self) (py "#d0d0d0") 1].

Definition header_y : Z := margin self + 50.
Definition model_y (brand : str) : Z :=
  header_y + text_height brand_font (upper brand) + 15.
Definition model_header_bottom (brand model : str) : Z :=
  model_y brand + text_height model_font (upper model).

Definition draw_header (brand model : str) : list DrawOp :=
  [Text (margin self + 50) header_y (upper brand) (py "#888888") brand_font;
   Text (margin self + 50) (model_y brand) (upper model) (py "#1a1a1a") model_font].

Definition image_area_top (brand model : str) : Z := model_header_bottom brand model + 40.
Definition spec_area_top : Z := height self - margin self - 320.
Definition image_area_bottom : Z := spec_area_top - 40.

(** The gray panel; the call raises when the panel is inverted, which it is
    on a canvas too low or too narrow for it. *)
Definition draw_image_area (brand model : str) : exc (list DrawOp) :=
  let border_x := margin self in
  rectangle (border_x + 20) (image_area_top brand model)
            (width self - border_x - 20) image_area_bottom (py "#e5e5e5").

(** The [try] block that embeds the car image; every exception in it
    (a failed download, a division by zero, a resize to an empty size) is
    passed over. *)
Definition embed_image (image_url : option str) (brand model : str) : list DrawOp :=
  if truthy_opt image_url then
    match fetch_image (default [] image_url) with
    | Some (iw, ih) =>
        let box_w := width self - 2 * margin self - 40 in
        let box_h := image_area_bottom - image_area_top brand model in
        match (sw ← true_div box_w iw;
               sh ← true_div box_h ih;
               Return (min3 sw sh PrimFloat.one)) with
        | Return scale =>
            let nw := int_of_float (PrimFloat.mul (float_of_int iw) scale) in
            let nh := int_of_float (PrimFloat.mul (float_of_int ih) scale) in
            if (nw <? 1) || (nh <? 1) then []
            else
              let paste_x := margin self + 20 + (box_w - nw) / 2 in
              let paste_y := image_area_top brand model + (box_h - nh) / 2 in
              [Paste paste_x paste_y nw nh]
        | Raise => []
        end
    | None => []
    end
  else [].

Definition spec_y_start : Z := spec_area_top.
Definition line_height : Z := 42.
Definition text_color : str := py "#1a1a1a".
Definition col_width : Z := (width self - 2 * margin self - 100) / 3.
Definition left_col_x : Z := margin self + 50.
Definition mid_col_x : Z := left_col_x + col_width + 20.
Definition right_col_x : Z := mid_col_x + col_width + 20.
Definition max_val_len : Z := 18.

(** Left: YEAR *)
Definition draw_year (display : gmap str str) : list DrawOp :=
  match display !! py "year" with
  | Some v =>
      let val := _sanitize_spec_value (Some v) max_val_len in
      [Text left_col_x spec_y_start (py "YEAR") text_color label_font;
       Text left_col_x (spec_y_start + line_height) val text_color value_font]
  | None => []
  end.

(** [if key in display_specs: items.append((label, sanitized value))] *)
Definition item (display : gmap str str) (key label : str) : list (str * str) :=
  match display !! key with
  | Some v => [(label, _sanitize_spec_value (Some v) max_val_len)]
  | None => []
  end.

Definition MID_FIELDS : list (str * str) :=
  [(py "engine", py "Engine"); (py "power", py "Power");
   (py "torque", py "Torque"); (py "weight", py "Weight")].

(** Middle: Engine, Power, Torque, Weight *)
Definition mid_items (display : gmap str str) : list (str * str) :=
  flat_map (fun f => item display f.1 f.2) MID_FIELDS.

Definition draw_mid (items : list (str * str)) : list DrawOp :=
  let mid_label_w := 75 in
  let mid_val_start := mid_col_x + mid_label_w + 12 in
  let mid_val_end := mid_col_x + col_width - 10 in
  concat (imap (fun i lv =>
                  let y := spec_y_start + Z.of_nat i * line_height in
                  let val_w := Z.min (text_width value_font lv.2)
                                     (mid_val_end - mid_val_start) in
                  [Text mid_col_x y lv.1 text_color label_font;
                   Text (mid_val_end - val_w) y lv.2 text_color value_font]) items).

(** Right: 0-100, Top speed *)
Definition right_items (display : gmap str str) : list (str * str) :=
  item display (py "acceleration_0_100") (py "0-100 km/h")
  ++ item display (py "top_speed") (py "Top speed").

Definition r_val_end : Z := right_col_x + col_width - 10.

Definition draw_right (items : list (str * str)) : list DrawOp :=
  let r_label_w := 110 in
  concat (imap (fun i lv =>
                  let y := spec_y_start + Z.of_nat i * line_height in
                  let val_w := Z.min (text_width value_font lv.2)
                                     (col_width - r_label_w - 15) in
                  [Text right_col_x y lv.1 text_color label_font;
                   Text (r_val_end - val_w) y lv.2 text_color value_font]) items).

(** Flag *)
Definition flag_y (items : list (str * str)) : Z :=
  spec_y_start + len items * line_height + 12.

Definition draw_brand_flag (brand : str) (items : list (str * str)) : exc (list DrawOp) :=
  let country_code := BRAND_COUNTRY !! lower (strip brand) in
  let flag_w := 36 in
  let flag_h := 24 in
  let flag_x := r_val_end - flag_w in
  if truthy_opt country_code
  then _draw_country_flag country_code flag_x (flag_y items) flag_w flag_h
  else Return [].

(** Save image *)
Definition save_format (output_path : str) : Format :=
  if endswith (py ".jpg") (lower output_path) || endswith (py ".jpeg") (lower output_path)
  then JPEG else PNG.

(** Everything drawn before the flag. The image is created first and the gray
    panel is drawn after the header: an exception of either call ends the
    run, and nothing is drawn after it. *)
Definition draw_body (brand model : str) (specs : gmap str str) : exc (list DrawOp) :=
  let display := display_specs specs in
  let image_url := specs !! py "image_url" in
  _ ← new_image (width self) (height self);
  panel ← draw_image_area brand model;
  Return (draw_borders ++ draw_header brand model
          ++ panel
          ++ embed_image image_url brand model
          ++ draw_year display
          ++ draw_mid (mid_items display)
          ++ draw_right (right_items display)).

(** [Raise]: the method ends with an exception and no file is saved. The flag
    is asked for with [w = 36] and [h = 24]; writing the file is taken to
    succeed. *)
Definition generate_poster (brand model : str) (specs : gmap str str) (output_path : str)
  : exc Poster :=
  body ← draw_body brand model specs;
  flag ← draw_brand_flag brand (right_items (display_specs specs));
  Return {| canvas := body ++ flag; format := save_format output_path |}.

End Composer.

(** [demo_mode]'s specification set. *)
Definition demo_specs : gmap str str :=
  list_to_map
    [(py "year", py "2016-2023"); (py "engine", py "2.5L TFSI");
     (py "power", py "394 HP"); (py "torque", py "480 Nm");
     (py "weight", py "1450 kg"); (py "acceleration_0_100", py "3.7 s");
     (py "top_speed", py "250 km/h")].

(** ** A sample environment

    Instances of the library interfaces on which the examples are evaluated. *)

Definition is_digit (c : N) : bool := ((48 <=? c) && (c <=? 57))%N.

(** [re.match] for the pattern of the year row, on ASCII digits: a non-empty
    text of digits, white space and dashes. *)
Definition sample_re_match (pattern text : str) : option Match :=
  if bool_decide (pattern = py "^[\d\s\-]+$") && truthy text
     && forallb (fun c => is_digit c || isspace c || (c =? 45)%N) text
  then Some {| whole := text; groups := fun _ => None |}
  else None.

(** A regex engine whose searches find nothing. The sample pages fill every
    field from their tables, so Tier 2 makes no search on them. *)
Definition sample_regex : Regex :=
  {| re_search := fun _ _ _ => None; re_match := sample_re_match |}.

(** The text before the first character that [stop] accepts. *)
Fixpoint before (stop : N -> bool) (s : str) : str :=
  match s with
  | c :: s' => if stop c then [] else c :: before stop s'
  | [] => []
  end.

(** The text from the first character that [stop] accepts. *)
Fixpoint from (stop : N -> bool) (s : str) : str :=
  match s with
  | c :: s' => if stop c then s else from stop s'
  | [] => []
  end.

(** The host part of a reference, from the text after the two slashes. *)
Definition authority (s : str) : str :=
  before (fun c => (c =? 47) || (c =? 63) || (c =? 35))%N s.

(** The base up to its last slash. *)
Definition directory (base : str) : str := rev (from (N.eqb 47) (rev base)).

(** The scheme and the host of the base. *)
Definition origin (base : str) : str :=
  let scheme := before (N.eqb 58) base in
  scheme ++ py "://" ++ authority (drop (length scheme + 3) base).

(** [urljoin] on the references of the samples: a reference with a host is kept
    (after the scheme of the base when it has none of its own), one with an
    unmatched bracket in its host raises [ValueError] (Invalid IPv6 URL), a
    path from the root follows the host of the base, and a relative path is
    appended to the directory of the base (dot segments are not resolved). *)
Definition sample_urljoin (base url : str) : exc str :=
  let host :=
    if startswith (py "//") url then Some (authority (drop 2 url))
    else if startswith (py "http://") url then Some (authority (drop 7 url))
    else if startswith (py "https://") url then Some (authority (drop 8 url))
    else None in
  match host with
  | Some host =>
      if xorb (contains (py "[") host) (contains (py "]") host) then Raise
      else if startswith (py "//") url
           then Return (before (N.eqb 58) base ++ py ":" ++ url)
           else Return url
  | None =>
      if startswith (py "/") url then Return (origin base ++ url)
      else Return (directory base ++ url)
  end.

Definition sample_urllib : Urllib := {| urljoin := sample_urljoin |}.

(** A fixed-pitch font, and the pixels within the ellipse inscribed in a box. *)
Definition sample_pillow : Pillow :=
  {| textbbox := fun font text => (0, 0, len text * (font_size font / 2), font_size font);
     ellipse_mask := fun x0 y0 x1 y1 p =>
       let a := x1 - x0 in
       let b := y1 - y0 in
       let dx := 2 * p.1 - x0 - x1 in
       let dy := 2 * p.2 - y0 - y1 in
       dx * dx * (b * b) + dy * dy * (a * a) <=? a * a * (b * b) |}.

(** No network: every download fails. *)
Definition offline : Web := {| fetch_image := fun _ => None |}.

(** Every download gives a picture of 3000x2000 pixels. *)
Definition photo_server : Web := {| fetch_image := fun _ => Some (3000, 2000) |}.

(** Every download gives a banner of 3000x1 pixels. *)
Definition banner_server : Web := {| fetch_image := fun _ => Some (3000, 1) |}.

Definition MODEL_URL : str := py "https://www.automobile-catalog.com/model/audi/tt_rs.html".

(** A specification table that fills all seven fields; the engine and the
    power appear twice. *)
Definition sample_rows : list (list str) :=
  [[py "Engine"; py "2.0 L"];
   [py "Power"; py "300 HP"];
   [py "Engine"; py "2.5L TFSI"];
   [py "Horsepower"; py "394 HP"];
   [py "Torque"; py "480 Nm"];
   [py "Weight"; py "1450 kg"];
   [py "Acceleration 0-100 km/h"; py "3.7 s"];
   [py "Top speed"; py "250 km/h"];
   [py "Production years"; py "2016-2023"]].

Definition sample_page (imgs : list str) : Soup :=
  {| soup_tables := [sample_rows];
     soup_text := py "Engine 2.0 L Power 300 HP Engine 2.5L TFSI Horsepower 394 HP Torque 480 Nm Weight 1450 kg Acceleration 0-100 km/h 3.7 s Top speed 250 km/h Production years 2016-2023";
     soup_imgs := imgs |}.

(** A page whose table has two rows of the year, the second with a newline in
    its cell. *)
Definition year_page : Soup :=
  {| soup_tables := [[[py "Year"; py "2015-2022"];
                      [py "Production years"; py " 2016" ++ [LF] ++ py "2023 "]]];
     soup_text := py "Year 2015-2022 Production years 2016 2023";
     soup_imgs := [py "/img/logo.png"; py "//cdn.example.com/tt_rs.jpg"] |}.

(** ** Notions used in the statements *)

(** The keys Tier 1 writes. *)
Definition TABLE_KEYS : list str :=
  py <$> ["engine"; "power"; "torque"; "weight"; "acceleration_0_100"; "top_speed";
          "year"]%string.

(** [f] leaves a populated field [k] alone. *)
Definition keeps (k : str) (f : gmap str str -> gmap str str) : Prop :=
  forall specs, truthy_opt (specs !! k) = true -> f specs !! k = specs !! k.

(** The cap of [_ok_spec_val] at the row of a field: the default 35, and 20 in
    the branch of the year. *)
Definition cap_of (key : str) : Z := if bool_decide (key = py "year") then 20 else 35.

(** The fields of a column that a specification set populates, in the order of
    the column, and the row of such a field: its label and its sanitized value. *)
Definition populated (specs : gmap str str) (fields : list (str * str)) : list (str * str) :=
  filter (fun f => is_Some (specs !! f.1)) fields.

Definition row_of (specs : gmap str str) (f : str * str) : str * str :=
  (f.2, _sanitize_spec_value (specs !! f.1) 18).

Definition RIGHT_FIELDS : list (str * str) :=
  [(py "acceleration_0_100", py "0-100 km/h"); (py "top_speed", py "Top speed")].

(** A definition of the flag table can be drawn: stripes have a colour. *)
Definition flag_wf (definition : FlagDefinition) : bool :=
  match definition with
  | Kind_h colors | Kind_v colors => match colors with [] => false | _ => true end
  | _ => true
  end.

(** What the composer needs of a country code of the brand table. *)
Definition code_ok (country_code : str) : bool :=
  truthy country_code && forallb is_ascii country_code
  && bool_decide (slice_to 2 (ascii_upper <$> country_code) = country_code)
  && match FLAG_DEFINITIONS !! country_code with
     | Some definition => flag_wf definition
     | None => false
     end.

(** The box the car image is fitted into, the factor [scale] of a picture of
    [iw] x [ih] pixels, and a side of [d] pixels scaled by it: [int(d * scale)]. *)
Definition box_w (self : PosterGenerator) : Z := width self - 2 * margin self - 40.

Definition box_h {U : Unicode} {P : Pillow} (self : PosterGenerator) (brand model : str) : Z :=
  image_area_bottom self - image_area_top self brand model.

Definition scale_factor {U : Unicode} {P : Pillow} (self : PosterGenerator)
    (brand model : str) (iw ih : Z) : float :=
  min3 (PrimFloat.div (float_of_int (box_w self)) (float_of_int iw))
       (PrimFloat.div (float_of_int (box_h self brand model)) (float_of_int ih))
       PrimFloat.one.

Definition scaled {U : Unicode} {P : Pillow} (self : PosterGenerator)
    (brand model : str) (iw ih d : Z) : Z :=
  int_of_float (PrimFloat.mul (float_of_int d) (scale_factor self brand model iw ih)).

(** The canvas on which the composer does not raise: a size that [Image.new]
    accepts, and a gray panel whose corners are in order. *)
Definition canvas_ok {U : Unicode} {P : Pillow} (self : PosterGenerator)
    (brand model : str) : bool :=
  (0 <=? width self) && (0 <=? height self)
  && (margin self + 20 <=? width self - margin self - 20)
  && (image_area_top self brand model <=? image_area_bottom self).

(** The gray panel, and what such a canvas holds before the flag. *)
Definition panel {U : Unicode} {P : Pillow} (self : PosterGenerator)
    (brand model : str) : DrawOp :=
  Rectangle (margin self + 20) (image_area_top self brand model)
            (width self - margin self - 20) (image_area_bottom self) (py "#e5e5e5").

Definition drawn_before_flag {U : Unicode} {P : Pillow} {W : Web} (self : PosterGenerator)
    (brand model : str) (specs : gmap str str) : list DrawOp :=
  draw_borders self ++ draw_header self brand model
  ++ [panel self brand model]
  ++ embed_image self (specs !! py "image_url") brand model
  ++ draw_year self (display_specs specs)
  ++ draw_mid self (mid_items (display_specs specs))
  ++ draw_right self (right_items (display_specs specs)).

(** The pixels of the rectangle of width [w] and height [h] at [(x, y)], row
    by row. *)
Definition pixels (x y w h : Z) : list (Z * Z) :=
  flat_map (fun j => (fun i => (i, j)) <$> seqZ x w) (seqZ y h).

(** A rectangle of [ops] sets the pixel [p]. *)
Definition rectangle_at (ops : list DrawOp) (p : Z * Z) : bool :=
  existsb (fun op => match op with
                     | Rectangle x0 y0 x1 y1 _ => in_box x0 y0 x1 y1 p
                     | _ => false
                     end) ops.

(** The rectangle or the ellipse [op] lies in the box of the two corner
    points [(x0, y0)] and [(x1, y1)]. *)
Definition op_within (x0 y0 x1 y1 : Z) (op : DrawOp) : bool :=
  match op with
  | Rectangle a b c d _ | Ellipse a b c d _ =>
      (x0 <=? a) && (c <=? x1) && (y0 <=? b) && (d <=? y1)
  | _ => true
  end.

(** A run of the flag renderer set every pixel of the rectangle of width [w]
    and height [h] at [(x, y)] by a rectangle, and drew nothing outside the
    box of the corner points [(x, y)] and [(x + w, y + h)]. *)
Definition flag_fills (x y w h : Z) (run : exc (list DrawOp)) : bool :=
  match run with
  | Return flag =>
      forallb (rectangle_at flag) (pixels x y w h)
      && forallb (op_within x y (x + w) (y + h)) flag
  | Raise => false
  end.

(** The pixel [p] is set by what a call of the flag renderer drew. *)
Definition flag_paints {P : Pillow} (run : exc (list DrawOp)) (p : Z * Z) : bool :=
  match run with
  | Return flag => painted flag p
  | Raise => false
  end.

(** ** Title case: [str.title] *)

Definition is_ascii_letter (c : N) : bool :=
  ((65 <=? c) && (c <=? 90) || (97 <=? c) && (c <=? 122))%N.

(** [str.title] on ASCII text: a letter that follows a letter is lower-cased,
    every other character is upper-cased. *)
Fixpoint ascii_title (previous_is_cased : bool) (s : str) : str :=
  match s with
  | [] => []
  | c :: s' =>
      (if previous_is_cased then ascii_lower c else ascii_upper c)
        :: ascii_title (is_ascii_letter c) s'
  end.

Class Titlecase := {
  title : str -> str;
  title_ascii : forall s, forallb is_ascii s = true -> title s = ascii_title false s
}.

#[export] Instance ascii_titlecase : Titlecase | 100 := {|
  title := ascii_title false;
  title_ascii := fun s _ => eq_refl
|}.

(** ** The page fetch: [_fetch_with_selenium] *)

(** What the scraper reads of a [requests.Response]. *)
Record Response := { status_code : Z; text : option str }.

(** [response.ok]: [raise_for_status] raises for the codes 400 to 599. *)
Definition ok (response : Response) : bool :=
  negb ((400 <=? status_code response) && (status_code response <? 600)).

(** The browser: whether each of the two ways to start a driver gives one
    ([None]: it does not), [driver.get(url)], and the readings of
    [driver.page_source], numbered in the order in which they are made while
    the page loads. *)
Inductive Driver := Undetected | Plain.

Class Selenium := {
  _get_driver_uc : option Driver;
  _get_driver_plain : option Driver;
  driver_get : Driver -> str -> exc unit;
  page_source : Driver -> str -> nat -> exc str
}.

(** [self.session.get(model_url, timeout=15)] *)
Class Requests := { session_get : str -> exc Response }.

(** [BeautifulSoup(html, 'html.parser')], as the extractor reads it. *)
Class HtmlParser := { BeautifulSoup : str -> Soup }.

(** ["Just a moment" in html or "Checking your browser" in html] *)
Definition challenge (html : str) : bool :=
  contains (py "Just a moment") html || contains (py "Checking your browser") html.

Section Fetch.
Context {B : Selenium}.

(** [for _ in range(18): ...]: the page returned from within the loop, if
    any, and the number of readings made. *)
Fixpoint wait_for_page (driver : Driver) (url : str) (rounds reads : nat)
  : exc (option str * nat) :=
  match rounds with
  | O => Return (None, reads)
  | S rounds' =>
      html ← page_source driver url reads;
      if challenge html then wait_for_page driver url rounds' (reads + 1)
      else if len html >? 5000 then
        html ← page_source driver url (reads + 1);
        if negb (contains (py "Just a moment") html)
           && negb (contains (py "Checking your browser") html)
        then Return (Some html, (reads + 2)%nat)
        else wait_for_page driver url rounds' (reads + 2)
      else wait_for_page driver url rounds' (reads + 1)
  end.

(** Every exception of the [try] block gives [None]. *)
Definition _fetch_with_selenium (url : str) : option str :=
  let driver := match _get_driver_uc with
                | Some driver => Some driver
                | None => _get_driver_plain
                end in
  match driver with
  | None => None
  | Some driver =>
      let run :=
        _ ← driver_get driver url;
        '(found, reads) ← wait_for_page driver url 18 0;
        match found with
        | Some html => Return (Some html)
        | None =>
            html ← page_source driver url reads;
            if challenge html then Return None else Return (Some html)
        end in
      match run with
      | Return html => html
      | Raise => None
      end
  end.

End Fetch.

(** ** The scraper: [CarSpecScraper] *)

(** An entry [{'name': ..., 'url': ...}] of a list of models. *)
Record ModelEntry := { name : str; url : str }.

Definition BASE_URL : str := py "https://www.automobile-catalog.com".

Definition SKIP_LINK_TEXTS : gset str :=
  list_to_set (py <$> ["Home"; "Search"; "About"; "Back"; "Login"; "Sign in"; "Contact";
                       "Privacy"; "Terms"]%string).

Definition UNDERSCORE : N := 95.
Definition HYPHEN : N := 45.

Module CarSpecScraper.
Section Methods.
Context {U : Unicode} {T : Titlecase} {R : Regex} {L : Urllib}.
Context {Q : Requests} {B : Selenium} {M : HtmlParser}.

Definition _is_blocked (response : Response) : bool :=
  if status_code response =? 403 then true
  else
    let text := slice_to 2000 (default [] (text response)) in
    contains (py "Just a moment") text || contains (py "cf_chl") text
    || contains (py "challenge") (lower text).

(** The body of the loop over the links [soup.find_all('a', href=True)]; a
    link is its [href] attribute and its text [get_text(strip=True)]. The
    state is the list [models] and the set [seen_urls]. *)
Definition visit_link (brand_lower : str) (state : list ModelEntry * gset str)
    (link : str * str) : exc (list ModelEntry * gset str) :=
  let '(models, seen_urls) := state in
  let href := strip link.1 in
  let text := link.2 in
  if negb (truthy text) || (len text <? 2) || bool_decide (text ∈ SKIP_LINK_TEXTS)
  then Return state
  else
    full_url ← urljoin BASE_URL href;
    if negb (contains BASE_URL full_url)
       || negb (contains (py "automobile-catalog.com") full_url)
    then Return state
    else
      let path_lower := if startswith (py "/") href then lower href else lower full_url in
      if contains (py "/model/") path_lower || contains (py "/car/") path_lower
         || contains (py "/make/") path_lower || contains brand_lower path_lower
      then
        if negb (bool_decide (full_url ∈ seen_urls)) && (len text <? 120)
        then Return (models ++ [{| name := text; url := full_url |}],
                     {[full_url]} ∪ seen_urls)
        else Return state
      else Return state.

Fixpoint visit_links (brand_lower : str) (state : list ModelEntry * gset str)
    (links : list (str * str)) : exc (list ModelEntry * gset str) :=
  match links with
  | [] => Return state
  | link :: rest =>
      state ← visit_link brand_lower state link;
      visit_links brand_lower state rest
  end.

(** The method has no handler: an exception of [urljoin] leaves it. *)
Definition _extract_models_from_soup (links : list (str * str)) (brand : str)
  : exc (list ModelEntry) :=
  state ← visit_links (lower brand) ([], ∅) links;
  Return state.1.

Definition search_brand (brand : str) (model_slug : option str) : list ModelEntry :=
  if negb (truthy_opt model_slug) then []
  else
    let model_slug := default [] model_slug in
    let brand_slug := replace SP UNDERSCORE (strip (lower brand)) in
    let slug := replace HYPHEN UNDERSCORE (replace SP UNDERSCORE (strip (lower model_slug))) in
    let url := BASE_URL ++ py "/model/" ++ brand_slug ++ py "/" ++ slug ++ py ".html" in
    [{| name := brand ++ py " " ++ title (replace UNDERSCORE SP model_slug); url := url |}].

(** The whole method: the request, the browser fallback for a blocked
    page, and the extraction from the parsed page, which is the
    [get_model_specs] above. An exception of the request gives [None]. *)
Definition get_model_specs (model_url : str) : option (gmap str str) :=
  match session_get model_url with
  | Raise => None
  | Return response =>
      let html := if _is_blocked response then _fetch_with_selenium model_url else None in
      let html := match html with
                  | None => if ok response then text response else None
                  | Some _ => html
                  end in
      if negb (truthy_opt html) then None
      else get_model_specs model_url (BeautifulSoup (default [] html))
  end.

End Methods.
End CarSpecScraper.

(** ** Fonts: [PosterGenerator._get_font] *)

(** The font [_get_font] returns: [ImageFont.truetype(path, size)] or
    [ImageFont.load_default()]. *)
Inductive LoadedFont :=
| TrueType (path : str) (size : Z)
| Default.

(** The font files of the machine: [os.path.exists(path)], and whether
    [ImageFont.truetype(path, size)] loads the file (it raises otherwise). *)
Class FontFiles := {
  path_exists : str -> bool;
  loads : str -> Z -> bool
}.

Definition font_paths : list (str * str) :=
  [(py "arial.ttf", py "arialbd.ttf");
   (py "C:/Windows/Fonts/arial.ttf", py "C:/Windows/Fonts/arialbd.ttf");
   (py "C:/Windows/Fonts/calibri.ttf", py "C:/Windows/Fonts/calibrib.ttf");
   (py "/System/Library/Fonts/Helvetica.ttc", py "/System/Library/Fonts/Helvetica.ttc")].

(** The literal [1.1]: the binary64 number nearest to it. *)
Definition f_1_1 : float := 0x1.199999999999ap+0%float.

Section Fonts.
Context {F : FontFiles}.

Definition truetype (path : str) (size : Z) : exc LoadedFont :=
  if loads path size then Return (TrueType path size) else Raise.

(** The body of the [try] for one pair of paths: [Return None] when it falls
    through, [Raise] when the bare [except] takes over. *)
Definition try_font (size : Z) (bold : bool) (entry : str * str) : exc (option LoadedFont) :=
  let '(regular, bold_font) := entry in
  if bold && path_exists bold_font then
    font ← truetype bold_font size; Return (Some font)
  else if path_exists regular then
    font ← truetype regular size;
    if bold then
      font ← truetype regular (int_of_float (PrimFloat.mul (float_of_int size) f_1_1));
      Return (Some font)
    else Return (Some font)
  else Return None.

Fixpoint first_font (size : Z) (bold : bool) (paths : list (str * str)) : LoadedFont :=
  match paths with
  | [] => Default
  | entry :: rest =>
      match try_font size bold entry with
      | Return (Some font) => font
      | _ => first_font size bold rest
      end
  end.

Definition _get_font (size : Z) (bold : bool) : LoadedFont :=
  first_font size bold font_paths.

End Fonts.

(** ** The command line: [demo_mode] and [main] *)

Definition KNOWN_MODEL_URLS : list ((str * str) * list (str * str)) :=
  [((py "audi", py "tt rs"),
    [(py "Audi TT RS", py "https://www.automobile-catalog.com/model/audi/tt_gen_2.html");
     (py "Audi TT RS", py "https://www.automobile-catalog.com/model/audi/tt_rs.html")])].

(** The arguments [parser.parse_args()] returns. *)
Module Args.
Record t := { brand : option str; model : option str; output : str;
              verbose : bool; demo : bool }.
End Args.

(** How a run of [main] ends: with the demo poster, with the help text, with
    the request for a model, without a URL, or with a poster of the
    specifications of a page or of the reference specifications. What is
    printed is left out. *)
Inductive Outcome :=
| DemoPoster (poster : Poster)
| Help
| ModelRequired
| NoUrl
| FromPage (selected : ModelEntry) (specs : gmap str str) (poster : Poster)
| FromReference (selected : ModelEntry) (poster : Poster).

(** [if specs:] on the result of [get_model_specs]. *)
Definition truthy_specs (specs : option (gmap str str)) : bool :=
  match specs with
  | Some specs => negb (bool_decide (specs = ∅))
  | None => false
  end.

Section Main.
Context {U : Unicode} {T : Titlecase} {R : Regex} {L : Urllib}.
Context {Q : Requests} {B : Selenium} {M : HtmlParser} {P : Pillow} {W : Web}.

Definition demo_mode : exc Poster :=
  generate_poster (new_generator 1200 1600) (py "AUDI") (py "TT RS") demo_specs
    (py "demo_poster.png").

(** [for (b, m), entries in KNOWN_MODEL_URLS.items(): ...], up to the [break]. *)
Fixpoint known_models (brand_key model_key : str)
    (items : list ((str * str) * list (str * str))) : list ModelEntry :=
  match items with
  | [] => []
  | ((b, m), entries) :: rest =>
      if bool_decide (b = brand_key) && (contains m model_key || contains model_key m)
      then (fun e => {| name := e.1; url := e.2 |}) <$> entries
      else known_models brand_key model_key rest
  end.

(** The URLs to try: the known ones, or else the one of [search_brand]. *)
Definition candidates (brand model : str) : list ModelEntry :=
  let brand_key := strip (lower brand) in
  let model_key := strip (lower model) in
  let models := known_models brand_key model_key KNOWN_MODEL_URLS in
  match models with
  | [] => CarSpecScraper.search_brand brand (Some model)
  | _ => models
  end.

(** [for candidate in models: ...]: the candidate selected and the last
    value of [specs]. *)
Fixpoint try_candidates (models : list ModelEntry) (selected_model : ModelEntry)
    (specs : option (gmap str str)) : ModelEntry * option (gmap str str) :=
  match models with
  | [] => (selected_model, specs)
  | candidate :: rest =>
      let specs := CarSpecScraper.get_model_specs (url candidate) in
      if truthy_specs specs then (candidate, specs)
      else try_candidates rest selected_model specs
  end.

(** [main], from the parsed arguments on; the reference specifications of
    its last branch are those of [demo_mode]. *)
Definition main (args : Args.t) : exc Outcome :=
  if Args.demo args then
    poster ← demo_mode; Return (DemoPoster poster)
  else if negb (truthy_opt (Args.brand args)) then Return Help
  else
    let brand := default [] (Args.brand args) in
    if negb (truthy_opt (Args.model args)) then Return ModelRequired
    else
      let model := default [] (Args.model args) in
      match candidates brand model with
      | [] => Return NoUrl
      | (first :: _) as models =>
          let '(selected_model, specs) := try_candidates models first None in
          if truthy_specs specs then
            let specs := default ∅ specs in
            poster ← generate_poster (new_generator 1200 1600) brand (name selected_model)
                       specs (Args.output args);
            Return (FromPage selected_model specs poster)
          else
            poster ← generate_poster (new_generator 1200 1600) brand (name selected_model)
                       demo_specs (Args.output args);
            Return (FromReference selected_model poster)
      end.

End Main.

(** ** A sample environment for the scraper and the command line *)

Definition sample_links : list (str * str) :=
  [(py "/", py "Home");
   (py " /model/audi/tt_rs.html ", py "Audi TT RS");
   (py "/about-us.html", py "About us");
   (py "https://www.automobile-catalog.com/model/audi/tt_rs.html", py "TT RS (8S)");
   (py "https://example.com/model/audi/", py "Elsewhere")].

Definition sample_models : list ModelEntry :=
  [{| name := py "Audi TT RS";
      url := py "https://www.automobile-catalog.com/model/audi/tt_rs.html" |}].

(** A browser that shows the bot check on its first three readings and the
    page from then on. *)
Definition sample_page_source (n : nat) : str :=
  if (n <? 3)%nat then py "<title>Just a moment...</title>"
  else py "<html>" ++ replicate (Z.to_nat 6000) SP ++ py "</html>".

Definition sample_selenium : Selenium :=
  {| _get_driver_uc := None;
     _get_driver_plain := Some Plain;
     driver_get := fun _ _ => Return ();
     page_source := fun _ _ n => Return (sample_page_source n) |}.

(** No browser starts. *)
Definition no_selenium : Selenium :=
  {| _get_driver_uc := None;
     _get_driver_plain := None;
     driver_get := fun _ _ => Raise;
     page_source := fun _ _ _ => Raise |}.

(** A site that answers every request with the status 403, and one that
    answers with the bot check and the status 200. *)
Definition forbidding_site : Requests :=
  {| session_get := fun _ => Return {| status_code := 403; text := Some (py "Forbidden") |} |}.

Definition checking_site : Requests :=
  {| session_get := fun _ =>
       Return {| status_code := 200;
                 text := Some (py "<title>Just a moment...</title>") |} |}.

(** A parser for pages without tags: the page is its text. *)
Definition text_parser : HtmlParser :=
  {| BeautifulSoup := fun html => {| soup_tables := []; soup_text := html; soup_imgs := [] |} |}.

Definition sample_args : Args.t :=
  {| Args.brand := Some (py "Audi"); Args.model := Some (py "A4");
     Args.output := py "a4.jpg"; Args.verbose := false; Args.demo := false |}.

(** A machine without any of the listed files, and one with Arial only in
    its regular cut. *)
Definition no_fonts : FontFiles :=
  {| path_exists := fun _ => false; loads := fun _ _ => false |}.

Definition arial_only : FontFiles :=
  {| path_exists := fun path => bool_decide (path = py "C:/Windows/Fonts/arial.ttf");
     loads := fun path _ => bool_decide (path = py "C:/Windows/Fonts/arial.ttf") |}.

(** What the sample page gives. *)
Definition sample_specs : gmap str str :=
  list_to_map
    [(py "engine", py "2.5L TFSI"); (py "power", py "394 HP");
     (py "torque", py "480 Nm"); (py "weight", py "1450 kg");
     (py "acceleration_0_100", py "3.7 s"); (py "top_speed", py "250 km/h");
     (py "year", py "2016-2023");
     (py "image_url", py "https://www.automobile-catalog.com/img/tt_rs_front.jpg")].

(** A regex engine that finds the power "300 kW" in a text that holds it, and
    nothing else. *)
Definition kw_match : Match :=
  {| whole := py "300 kW";
     groups := fun i => match i with 1%nat => Some (py "300") | _ => None end |}.

Definition kw_regex : Regex :=
  {| re_search := fun pattern text _ =>
       if bool_decide (pattern = py "(\d+)\s*(?:HP|hp|PS|ps|kW|kw)")
          && contains (py "300 kW") text
       then Some kw_match else None;
     re_match := sample_re_match |}.

Definition kw_page : Soup :=
  {| soup_tables := []; soup_text := py "Output 300 kW at 6000 rpm"; soup_imgs := [] |}.

(** ** Notions used in the statements on the scraper and the command line *)

(** A text is trimmed when neither its first nor its last character is white
    space: [strip] has nothing to remove. *)
Definition starts_clean (s : str) : Prop :=
  match s with c :: _ => isspace c = false | [] => True end.

Definition trimmed (s : str) : Prop := starts_clean s /\ starts_clean (rev s).

(** A lower-case ASCII character, which [str.lower] leaves as it is. *)
Definition lowered (c : N) : Prop := is_ascii c = true /\ ascii_lower c = c.

(** What the loop over the links keeps true of the models found so far. *)
Definition entry_of {L : Urllib} (links : list (str * str)) (entry : ModelEntry) : Prop :=
  exists link,
    (link ∈ links) /\ name entry = link.2
    /\ urljoin BASE_URL (strip link.1) = Return (url entry).

Definition entry_ok (entry : ModelEntry) : Prop :=
  2 <= len (name entry) < 120
  /\ (name entry ∉ SKIP_LINK_TEXTS)
  /\ contains BASE_URL (url entry) = true.

Definition models_inv {L : Urllib} (links : list (str * str))
    (state : list ModelEntry * gset str) : Prop :=
  (forall u, u ∈ state.2 <-> u ∈ url <$> state.1)
  /\ NoDup (url <$> state.1)
  /\ Forall (fun entry => entry_of links entry /\ entry_ok entry) state.1.

(** What the extractor makes of a page source: nothing of an empty one. *)
Definition parsed {U : Unicode} {R : Regex} {L : Urllib} {M : HtmlParser}
    (model_url : str) (html : option str) : option (gmap str str) :=
  match html with
  | Some html => if truthy html then get_model_specs model_url (BeautifulSoup html) else None
  | None => None
  end.

(** A candidate whose page gives no specification. *)
Definition fails {U : Unicode} {R : Regex} {L : Urllib} {Q : Requests} {B : Selenium}
    {M : HtmlParser} (candidate : ModelEntry) : Prop :=
  truthy_specs (CarSpecScraper.get_model_specs (url candidate)) = false.

(** Where the font of a pair of paths comes from. *)
Definition font_from {F : FontFiles} (size : Z) (bold : bool) (entry : str * str)
    (font : LoadedFont) : Prop :=
  (bold = true /\ path_exists entry.2 = true /\ loads entry.2 size = true
   /\ font = TrueType entry.2 size)
  \/ (bold = true /\ path_exists entry.2 = false /\ path_exists entry.1 = true
      /\ loads entry.1 size = true
      /\ loads entry.1 (int_of_float (PrimFloat.mul (float_of_int size) f_1_1)) = true
      /\ font = TrueType entry.1 (int_of_float (PrimFloat.mul (float_of_int size) f_1_1)))
  \/ (bold = false /\ path_exists entry.1 = true /\ loads entry.1 size = true
      /\ font = TrueType entry.1 size).

(** A fallback sets its own field only. *)
Definition sets_only (key : str) (f : gmap str str -> gmap str str) : Prop :=
  forall specs k, k <> key -> f specs !! k = specs !! k.

(** * Properties *)

(** ** Tactics *)

(** Case analysis along the [if]/[elif] chain of the row loop. *)
Ltac row_cases :=
  repeat match goal with
    | |- context [if ?b then _ else _] => destruct b eqn:?
    end.

(** Two string literals differ. *)
Ltac str_neq := let H := fresh in intros H; vm_compute in H; discriminate H.

(** ** Python strings *)

Lemma startswith_spec (p s : str) :
  startswith p s = true <-> exists rest, s = p ++ rest.
Proof.
  revert s. induction p as [|a p IH]; intros s; cbn.
  - split; [by exists s|done].
  - destruct s as [|b s]; [split; [done|by intros [? ?]]|].
    rewrite andb_true_iff, N.eqb_eq, IH. split.
    + intros [-> [rest ->]]. by exists rest.
    + intros [rest [= -> ->]]. split; [done|by exists rest].
Qed.

(** [sub in s]: [sub] occurs in [s]. *)
Lemma contains_spec (sub s : str) :
  contains sub s = true <-> exists l r, s = l ++ sub ++ r.
Proof.
  induction s as [|c s IH]; cbn [contains]; rewrite orb_true_iff, startswith_spec.
  - split.
    + intros [[r Hr] | ?]; [|done]. by exists [], r.
    + intros (l & r & Hs). left. exists r.
      destruct l; [done|discriminate].
  - rewrite IH. split.
    + intros [[r Hr] | (l & r & ->)]; [by exists [], r|by exists (c :: l), r].
    + intros ([|c' l] & r & Hs); [left; by exists r|].
      injection Hs as -> ->. right. by exists l, r.
Qed.

Example strip_example : strip (py "  2016 - 2023 ") = py "2016 - 2023".
Proof. reflexivity. Qed.

Example slice_to_negative : slice_to (-1) (py "ab") = py "a".
Proof. reflexivity. Qed.

(** ** Properties of the sanitizer *)

Example sanitize_example :
  _sanitize_spec_value (Some (py "2.5L TFSI inline five-cylinder")) 18
  = py "2.5L TFSI inline " ++ [ELLIPSIS].
Proof. reflexivity. Qed.

Example sanitize_short_example :
  _sanitize_spec_value (Some (py " 394 HP ")) 18 = py "394 HP".
Proof. reflexivity. Qed.

Lemma len_nonneg (s : str) : 0 <= len s.
Proof. unfold len. lia. Qed.

Lemma normalized_nil : normalized [] = [].
Proof. reflexivity. Qed.

Lemma len_slice_to (n : Z) (s : str) :
  0 <= n <= len s -> len (slice_to n s) = n.
Proof.
  intros [H0 Hn]. unfold slice_to, len in *.
  destruct (Z.leb_spec 0 n) as [_|Hneg]; [|lia].
  rewrite length_take. lia.
Qed.

(** C4: an input whose whitespace-normalized form is longer than the cap is
    sanitized to exactly [max_len] characters, the last one being the
    ellipsis, for every cap of at least 1 (the callers pass 18, the default
    is 22; an output of [max_len] characters with a last character needs
    [max_len >= 1]); empty or missing input gives the empty string for every
    cap. *)
Theorem C4_sanitize_length_and_ellipsis :
  (forall max_len, _sanitize_spec_value None max_len = []
                   /\ _sanitize_spec_value (Some []) max_len = []) /\
  (forall (v : str) (max_len : Z),
      1 <= max_len -> max_len < len (normalized v) ->
      len (_sanitize_spec_value (Some v) max_len) = max_len
      /\ last (_sanitize_spec_value (Some v) max_len) = Some ELLIPSIS).
Proof.
  split; [done|].
  intros v max_len Hcap Hlong. unfold _sanitize_spec_value.
  destruct v as [|c v'].
  { rewrite normalized_nil in Hlong. unfold len in Hlong. simpl in Hlong. lia. }
  cbn [truthy negb]. cbv zeta.
  destruct (Z.gtb_spec (len (normalized (c :: v'))) max_len) as [_|Hle]; [|lia].
  split.
  - unfold len. rewrite length_app. cbn [length].
    pose proof (len_slice_to (max_len - 1) (normalized (c :: v'))) as Hs.
    unfold len in Hs, Hlong. lia.
  - apply last_snoc.
Qed.

Lemma C4_sanitize_witness :
  1 <= 18 /\ 18 < len (normalized (py "3.0 L twin-turbo V6 petrol")) /\
  len (_sanitize_spec_value (Some (py "3.0 L twin-turbo V6 petrol")) 18) = 18 /\
  last (_sanitize_spec_value (Some (py "3.0 L twin-turbo V6 petrol")) 18) = Some ELLIPSIS.
Proof.
  split; [lia|]. split; [reflexivity|].
  apply (proj2 C4_sanitize_length_and_ellipsis
           (py "3.0 L twin-turbo V6 petrol") 18); [lia | reflexivity].
Defined.

(** ** Properties of the extractor *)

Section ExtractorFacts.
Context {U : Unicode} {R : Regex} {L : Urllib}.

Lemma truthy_fmap (f : N -> N) (s : str) : truthy (f <$> s) = truthy s.
Proof. by destruct s. Qed.

Lemma slice_to_fmap (f : N -> N) (n : Z) (s : str) :
  slice_to n (f <$> s) = f <$> slice_to n s.
Proof. unfold slice_to. rewrite length_fmap. destruct (0 <=? n); by rewrite fmap_take. Qed.

Lemma len_slice_to_le (n : Z) (s : str) : 0 <= n -> len (slice_to n s) <= n.
Proof.
  intros Hn. unfold slice_to, len.
  destruct (Z.leb_spec 0 n); [|lia]. rewrite length_take. lia.
Qed.

(** What [_ok_spec_val] accepts, and what it returns. *)
Lemma _ok_spec_val_Some (v r : str) (max_len : Z) :
  _ok_spec_val v max_len = Some r <->
  r = slice_to max_len (replace LF SP (strip v))
  /\ truthy r = true /\ len r <= max_len
  /\ existsb (fun x => contains x (lower r)) REJECT = false.
Proof.
  unfold _ok_spec_val. cbv zeta.
  set (w := slice_to max_len (replace LF SP (strip v))).
  destruct (truthy w) eqn:Ht; cbn [negb orb].
  - destruct (Z.gtb_spec (len w) max_len) as [Hgt|Hle].
    + split; [done|]. intros (-> & _ & Hlen & _). lia.
    + destruct (existsb _ REJECT) eqn:Hrej.
      * split; [done|]. intros (-> & _ & _ & Hr). congruence.
      * split; [intros [= <-]; done|]. by intros (-> & _).
  - split; [done|]. intros (-> & Hr & _). congruence.
Qed.

Lemma _ok_spec_val_truthy (v : str) (max_len : Z) :
  truthy_opt (_ok_spec_val v max_len) = true ->
  truthy (slice_to max_len (strip v)) = true.
Proof.
  destruct (_ok_spec_val v max_len) as [r|] eqn:Hr; [|done].
  apply _ok_spec_val_Some in Hr as (-> & Ht & _). intros _.
  unfold replace in Ht. by rewrite slice_to_fmap, truthy_fmap in Ht.
Qed.

(** A row writes one key or nothing, whatever was extracted before. *)
Lemma store_if_ok_lookup (key value : str) (specs : gmap str str) (k : str) :
  store_if_ok key value specs !! k
  = match store_if_ok key value ∅ !! k with
    | Some v => Some v
    | None => specs !! k
    end.
Proof.
  unfold store_if_ok. destruct (_ok_spec_val value 35) as [v|]; [|done].
  destruct (truthy v); [|done].
  destruct (decide (key = k)) as [->|Hne].
  - by rewrite !lookup_insert_eq.
  - by rewrite !lookup_insert_ne.
Qed.

Lemma store_if_ok_inv (key value : str) (k v : str) :
  store_if_ok key value ∅ !! k = Some v ->
  k = key /\ truthy v = true /\ _ok_spec_val value 35 = Some v.
Proof.
  unfold store_if_ok. destruct (_ok_spec_val value 35) as [r|]; [|done].
  destruct (truthy r) eqn:Ht; [|done].
  intros [[-> ->] | [_ ?]]%lookup_insert_Some; done.
Qed.

Lemma scan_row_lookup (specs : gmap str str) (cells : list str) (k : str) :
  scan_row specs cells !! k
  = match scan_row ∅ cells !! k with
    | Some v => Some v
    | None => specs !! k
    end.
Proof.
  destruct cells as [|c0 [|c1 rest]]; [done..|].
  unfold scan_row. cbv zeta. row_cases; try apply store_if_ok_lookup; try done.
  destruct (decide (py "year" = k)) as [<-|Hne].
  - by rewrite !lookup_insert_eq.
  - by rewrite !lookup_insert_ne.
Qed.

Lemma image_url_not_table_key : py "image_url" ∉ TABLE_KEYS.
Proof. apply (bool_decide_unpack _). by vm_compute. Qed.

Lemma scan_row_inv (cells : list str) (k v : str) :
  scan_row ∅ cells !! k = Some v -> k ∈ TABLE_KEYS /\ truthy v = true.
Proof.
  destruct cells as [|c0 [|c1 rest]]; [done..|].
  unfold scan_row. cbv zeta. row_cases;
    try (intros (-> & ? & _)%store_if_ok_inv; split; [|done];
         unfold TABLE_KEYS; cbn; set_solver);
    try done.
  intros [[<- <-] | [_ ?]]%lookup_insert_Some; [|done].
  split; [unfold TABLE_KEYS; cbn; set_solver|].
  apply _ok_spec_val_truthy. by destruct (truthy_opt _).
Qed.

(** What a row stores: the value of [_ok_spec_val] at the cap 35, and for the
    year the stripped cell cut to 20 characters. *)
Lemma scan_row_accepts (cells : list str) (key stored : str) :
  scan_row ∅ cells !! key = Some stored ->
  exists label value rest,
    cells = label :: value :: rest
    /\ ((key <> py "year" /\ _ok_spec_val value 35 = Some stored)
        \/ (key = py "year" /\ truthy_opt (_ok_spec_val value 20) = true
            /\ is_Some (re_match YEAR_ROW_PATTERN (slice_to 20 (strip value)))
            /\ stored = slice_to 20 (strip value))).
Proof.
  destruct cells as [|c0 [|c1 rest]]; [done..|].
  intros Hrow. exists c0, c1, rest. split; [done|]. revert Hrow.
  unfold scan_row. cbv zeta. row_cases;
    try (intros (-> & _ & Hok)%store_if_ok_inv; left; split; [str_neq|done]);
    try done.
  intros [[<- <-] | [_ ?]]%lookup_insert_Some; [|done].
  match goal with H : _ && _ = true |- _ => apply andb_true_iff in H as [Hok Hm] end.
  apply bool_decide_eq_true in Hm. by right.
Qed.

(** The value a row stores, from the text of its second cell. *)
Lemma scan_row_stored (cells : list str) (key stored : str) :
  scan_row ∅ cells !! key = Some stored ->
  exists label cell rest,
    cells = label :: cell :: rest
    /\ stored = if bool_decide (key = py "year") then slice_to 20 (strip cell)
                else slice_to 35 (replace LF SP (strip cell)).
Proof.
  intros (label & cell & rest & -> & Hcase)%scan_row_accepts.
  exists label, cell, rest. split; [done|].
  destruct Hcase as [[Hkey Hok] | (-> & _ & _ & ->)].
  - rewrite bool_decide_eq_false_2 by done.
    by destruct (proj1 (_ok_spec_val_Some _ _ _) Hok) as (-> & _).
  - by rewrite bool_decide_eq_true_2.
Qed.

(** Among the rows of a page, the last one that is accepted for a field. *)
Lemma last_accepted_row (rows : list (list str)) (row : list str) (key value : str) :
  row ∈ rows -> scan_row ∅ row !! key = Some value ->
  exists before last after stored,
    rows = before ++ last :: after
    /\ scan_row ∅ last !! key = Some stored
    /\ Forall (fun r => scan_row ∅ r !! key = None) after.
Proof.
  revert row value. induction rows as [|final rows IH] using rev_ind; intros row value Hin Hrow.
  - by apply elem_of_nil in Hin.
  - destruct (scan_row ∅ final !! key) as [stored|] eqn:Hfinal.
    + exists rows, final, [], stored. by repeat split.
    + apply elem_of_app in Hin as [Hin | Hin%list_elem_of_singleton]; [|congruence].
      destruct (IH row value Hin Hrow) as (before & last & after & stored & -> & Hlast & Hafter).
      exists before, last, (after ++ [final]), stored.
      split; [by rewrite <- (assoc_L (++))|]. split; [done|].
      apply Forall_app. split; [done|]. by apply Forall_singleton.
Qed.

Lemma scan_tables_concat (specs : gmap str str) (tables : list (list (list str))) :
  scan_tables specs tables = foldl scan_row specs (concat tables).
Proof.
  unfold scan_tables. revert specs.
  induction tables as [|t ts IH]; intros specs; [done|].
  cbn [foldl concat]. by rewrite foldl_app, IH.
Qed.

Lemma foldl_scan_row_untouched (rows : list (list str)) (specs : gmap str str) (k : str) :
  Forall (fun r => scan_row ∅ r !! k = None) rows ->
  foldl scan_row specs rows !! k = specs !! k.
Proof.
  intros Hrows. revert specs.
  induction Hrows as [|r rows Hr _ IH]; intros specs; [done|].
  cbn [foldl]. by rewrite IH, scan_row_lookup, Hr.
Qed.

Lemma foldl_scan_row_last (before after : list (list str)) (row : list str)
    (specs : gmap str str) (k v : str) :
  scan_row ∅ row !! k = Some v ->
  Forall (fun r => scan_row ∅ r !! k = None) after ->
  foldl scan_row specs (before ++ row :: after) !! k = Some v.
Proof.
  intros Hrow Hafter. rewrite foldl_app. cbn [foldl].
  by rewrite foldl_scan_row_untouched, scan_row_lookup, Hrow.
Qed.

Lemma foldl_scan_row_origin (rows : list (list str)) (specs : gmap str str) (k v : str) :
  foldl scan_row specs rows !! k = Some v ->
  specs !! k = Some v \/ exists row, row ∈ rows /\ scan_row ∅ row !! k = Some v.
Proof.
  revert specs. induction rows as [|r rows IH]; intros specs; [by left|].
  cbn [foldl]. intros [Hs | (row & Hin & Hrow)]%IH.
  - rewrite scan_row_lookup in Hs.
    destruct (scan_row ∅ r !! k) as [v'|] eqn:Hr; [|by left].
    right. exists r. split; [left|congruence].
  - right. exists row. split; [by right|done].
Qed.

Lemma foldl_scan_row_kept (rows : list (list str)) (specs : gmap str str) (k : str) :
  is_Some (specs !! k) -> is_Some (foldl scan_row specs rows !! k).
Proof.
  revert specs. induction rows as [|r rows IH]; intros specs Hs; [done|].
  cbn [foldl]. apply IH. rewrite scan_row_lookup.
  destruct (scan_row ∅ r !! k); [by eexists|done].
Qed.

Lemma foldl_scan_row_present (rows : list (list str)) (row : list str)
    (specs : gmap str str) (k v : str) :
  row ∈ rows -> scan_row ∅ row !! k = Some v ->
  is_Some (foldl scan_row specs rows !! k).
Proof.
  intros (before & after & ->)%list_elem_of_split Hrow.
  rewrite foldl_app. cbn [foldl]. apply foldl_scan_row_kept.
  rewrite scan_row_lookup, Hrow. by eexists.
Qed.

(** Every value Tier 1 leaves in the set is a non-empty string. *)
Lemma scan_tables_truthy (tables : list (list (list str))) (k v : str) :
  scan_tables ∅ tables !! k = Some v -> truthy v = true /\ k ∈ TABLE_KEYS.
Proof.
  rewrite scan_tables_concat.
  intros [Hs | (row & _ & Hrow)]%foldl_scan_row_origin; [done|].
  apply scan_row_inv in Hrow. tauto.
Qed.

End ExtractorFacts.

Section FallbackFacts.
Context {U : Unicode} {R : Regex} {L : Urllib}.

Lemma keeps_compose (k : str) (f g : gmap str str -> gmap str str) :
  keeps k f -> keeps k g -> keeps k (fun specs => g (f specs)).
Proof.
  intros Hf Hg specs Hk. rewrite Hg, Hf; try done. by rewrite Hf.
Qed.

Ltac keeps_tac key :=
  intros specs Hk;
  match goal with |- _ !! ?k = _ => destruct (decide (k = key)) as [->|Hne] end;
  [ unfold missing; by rewrite Hk
  | destruct (missing _ _); [|done]; repeat case_match; by rewrite ?lookup_insert_ne ].

Lemma fallback_engine_keeps (k text : str) : keeps k (fallback_engine text).
Proof. unfold fallback_engine. keeps_tac (py "engine"). Qed.

Lemma fallback_power_keeps (k text : str) : keeps k (fallback_power text).
Proof. unfold fallback_power. keeps_tac (py "power"). Qed.

Lemma fallback_torque_keeps (k text : str) : keeps k (fallback_torque text).
Proof. unfold fallback_torque. keeps_tac (py "torque"). Qed.

Lemma fallback_weight_keeps (k text : str) : keeps k (fallback_weight text).
Proof. unfold fallback_weight. keeps_tac (py "weight"). Qed.

Lemma fallback_acceleration_keeps (k text : str) : keeps k (fallback_acceleration text).
Proof. unfold fallback_acceleration. keeps_tac (py "acceleration_0_100"). Qed.

Lemma fallback_top_speed_keeps (k text : str) : keeps k (fallback_top_speed text).
Proof. unfold fallback_top_speed. keeps_tac (py "top_speed"). Qed.

Lemma fallback_year_keeps (k model_url text : str) : keeps k (fallback_year model_url text).
Proof. unfold fallback_year. keeps_tac (py "year"). Qed.

(** Tier 2 never changes a field that holds a non-empty value. *)
Lemma regex_fallback_keeps (k model_url text : str) :
  keeps k (regex_fallback model_url text).
Proof.
  pose proof (keeps_compose k _ _ (fallback_engine_keeps k text)
                (fallback_power_keeps k text)) as H1.
  pose proof (keeps_compose k _ _ H1 (fallback_torque_keeps k text)) as H2.
  pose proof (keeps_compose k _ _ H2 (fallback_weight_keeps k text)) as H3.
  pose proof (keeps_compose k _ _ H3 (fallback_acceleration_keeps k text)) as H4.
  pose proof (keeps_compose k _ _ H4 (fallback_top_speed_keeps k text)) as H5.
  exact (keeps_compose k _ _ H5 (fallback_year_keeps k model_url text)).
Qed.

(** Tier 3 writes [image_url] only, and returns unless [urljoin] raises. *)
Lemma main_image_frame (model_url : str) (imgs : list str) (specs out : gmap str str) (k : str) :
  main_image model_url imgs specs = Return out ->
  k <> py "image_url" -> out !! k = specs !! k.
Proof.
  intros Hrun Hk. induction imgs as [|img rest IH]; cbn in Hrun.
  - by injection Hrun as <-.
  - destruct (skip_image (strip img)); [by apply IH|].
    destruct (urljoin model_url (strip img)) as [full|]; [|done]. cbn in Hrun.
    destruct (_ || _); [|by apply IH].
    injection Hrun as <-. by rewrite lookup_insert_ne.
Qed.

Lemma any_image_frame (model_url : str) (imgs : list str) (specs out : gmap str str) (k : str) :
  any_image model_url imgs specs = Return out ->
  k <> py "image_url" -> out !! k = specs !! k.
Proof.
  intros Hrun Hk. induction imgs as [|img rest IH]; cbn in Hrun.
  - by injection Hrun as <-.
  - destruct (_ && _); [|by apply IH].
    destruct (urljoin model_url (strip img)) as [full|]; [|done]. cbn in Hrun.
    injection Hrun as <-. by rewrite lookup_insert_ne.
Qed.

Lemma image_reference_frame (model_url : str) (imgs : list str) (specs out : gmap str str)
    (k : str) :
  image_reference model_url imgs specs = Return out ->
  k <> py "image_url" -> out !! k = specs !! k.
Proof.
  unfold image_reference. intros Hrun Hk.
  destruct (main_image model_url imgs specs) as [mid|] eqn:Hmain; [|done]. cbn in Hrun.
  rewrite <- (main_image_frame _ _ _ _ k Hmain Hk).
  destruct (bool_decide _); [by injection Hrun as <-|].
  by apply (any_image_frame _ _ _ _ k Hrun).
Qed.

Lemma main_image_returns (model_url : str) (imgs : list str) (specs : gmap str str) :
  Forall (fun img => urljoin model_url (strip img) <> Raise) imgs ->
  exists out, main_image model_url imgs specs = Return out.
Proof.
  induction 1 as [|img rest Himg _ IH]; cbn; [by eexists|].
  destruct (skip_image (strip img)); [done|].
  destruct (urljoin model_url (strip img)) as [full|]; [|done]. cbn.
  destruct (_ || _); [by eexists|done].
Qed.

Lemma any_image_returns (model_url : str) (imgs : list str) (specs : gmap str str) :
  Forall (fun img => urljoin model_url (strip img) <> Raise) imgs ->
  exists out, any_image model_url imgs specs = Return out.
Proof.
  induction 1 as [|img rest Himg _ IH]; cbn; [by eexists|].
  destruct (_ && _); [|done].
  destruct (urljoin model_url (strip img)) as [full|]; [|done]. cbn. by eexists.
Qed.

Lemma image_reference_returns (model_url : str) (imgs : list str) (specs : gmap str str) :
  Forall (fun img => urljoin model_url (strip img) <> Raise) imgs ->
  exists out, image_reference model_url imgs specs = Return out.
Proof.
  intros Himgs. unfold image_reference.
  destruct (main_image_returns model_url imgs specs Himgs) as [mid ->]. cbn.
  destruct (bool_decide _); [by eexists|]. by apply any_image_returns.
Qed.

(** A field Tier 1 populated reaches the returned set unchanged, when no
    image reference makes [urljoin] raise. *)
Lemma table_field_returned (model_url : str) (soup : Soup) (k v : str) :
  scan_tables ∅ (soup_tables soup) !! k = Some v ->
  Forall (fun img => urljoin model_url (strip img) <> Raise) (soup_imgs soup) ->
  regex_fallback model_url (soup_text soup) (scan_tables ∅ (soup_tables soup)) !! k = Some v
  /\ exists specs, get_model_specs model_url soup = Some specs /\ specs !! k = Some v.
Proof.
  intros Hk Himgs.
  destruct (scan_tables_truthy _ _ _ Hk) as [Ht Hkey].
  assert (Hfb : regex_fallback model_url (soup_text soup)
                  (scan_tables ∅ (soup_tables soup)) !! k = Some v).
  { rewrite regex_fallback_keeps; [done|]. by rewrite Hk. }
  split; [done|].
  unfold get_model_specs, extract.
  destruct (image_reference_returns model_url (soup_imgs soup)
              (regex_fallback model_url (soup_text soup)
                 (scan_tables ∅ (soup_tables soup))) Himgs) as [out Hout].
  rewrite Hout.
  assert (Hne : k <> py "image_url").
  { intros ->. by apply image_url_not_table_key. }
  assert (Hv : out !! k = Some v).
  { by rewrite (image_reference_frame _ _ _ _ k Hout Hne). }
  rewrite bool_decide_eq_false_2; [by eexists|].
  intros ->. by rewrite lookup_empty in Hv.
Qed.

End FallbackFacts.

(** ** Tier 1: which value of a field is returned *)

Example extraction_example :
  get_model_specs (U:=ascii_unicode) (R:=sample_regex) (L:=sample_urllib)
    MODEL_URL (sample_page [py "/img/logo.png"; py "/img/tt_rs_front.jpg"])
  = Some (list_to_map
            [(py "engine", py "2.5L TFSI"); (py "power", py "394 HP");
             (py "torque", py "480 Nm"); (py "weight", py "1450 kg");
             (py "acceleration_0_100", py "3.7 s"); (py "top_speed", py "250 km/h");
             (py "year", py "2016-2023");
             (py "image_url", py "https://www.automobile-catalog.com/img/tt_rs_front.jpg")]).
Proof. by vm_compute. Qed.

(** C1 as stated fails: the engine row accepted first gives ["2.0 L"], a later
    accepted engine row replaces it, and the returned set holds the later
    value. *)
Lemma C1_first_value_replaced :
  scan_row (U:=ascii_unicode) (R:=sample_regex) ∅ [py "Engine"; py "2.0 L"] !! py "engine"
    = Some (py "2.0 L")
  /\ scan_tables (U:=ascii_unicode) (R:=sample_regex) ∅ [sample_rows] !! py "engine"
     = Some (py "2.5L TFSI")
  /\ (get_model_specs (U:=ascii_unicode) (R:=sample_regex) (L:=sample_urllib)
        MODEL_URL (sample_page []) ≫= fun specs => specs !! py "engine")
     = Some (py "2.5L TFSI")
  /\ py "2.0 L" <> py "2.5L TFSI".
Proof. repeat split; by vm_compute. Qed.

Section Tier1Claims.
Context {U : Unicode} {R : Regex} {L : Urllib}.

(** C1 (amended): in the Tier-1 table scan the value of a field is the one of
    the last row, in table-row order, that is accepted for the field: each
    accepted row replaces what an earlier row stored. That value is the one in
    the returned set (when no image reference makes the extraction raise). *)
Theorem C1_last_accepted_value_wins (model_url : str) (soup : Soup)
    (before after : list (list str)) (row : list str) (key value : str) :
  concat (soup_tables soup) = before ++ row :: after ->
  scan_row ∅ row !! key = Some value ->
  Forall (fun r => scan_row ∅ r !! key = None) after ->
  Forall (fun img => urljoin model_url (strip img) <> Raise) (soup_imgs soup) ->
  scan_tables ∅ (soup_tables soup) !! key = Some value
  /\ exists specs, get_model_specs model_url soup = Some specs
                   /\ specs !! key = Some value.
Proof.
  intros Hrows Hrow Hafter Himgs.
  assert (Ht1 : scan_tables ∅ (soup_tables soup) !! key = Some value).
  { rewrite scan_tables_concat, Hrows. by apply foldl_scan_row_last. }
  split; [done|].
  by apply (table_field_returned model_url soup key value Ht1).
Qed.

(** C3 (amended): when a page has a row that Tier 1 accepts for a field, and
    no image reference makes the extraction raise, the output has that field.
    Its value is the one stored by the last row, in row order, that is
    accepted for the field (not always the given row): the text of the cell
    stripped, with newlines replaced by spaces, cut to 35 characters, and for
    the year the text of the cell stripped and cut to 20 characters, with its
    newlines. Tier 2 leaves that value, as it leaves every field that holds a
    non-empty value, alone. *)
Theorem C3_table_field_survives_fallback (model_url : str) (soup : Soup)
    (row : list str) (key value : str) :
  row ∈ concat (soup_tables soup) ->
  scan_row ∅ row !! key = Some value ->
  Forall (fun img => urljoin model_url (strip img) <> Raise) (soup_imgs soup) ->
  (exists (before : list (list str)) (last : list str) (after : list (list str))
          (label cell : str) (rest : list str) (stored : str) (specs : gmap str str),
      concat (soup_tables soup) = before ++ last :: after
      /\ last = label :: cell :: rest
      /\ scan_row ∅ last !! key = Some stored
      /\ Forall (fun r => scan_row ∅ r !! key = None) after
      /\ stored = (if bool_decide (key = py "year") then slice_to 20 (strip cell)
                   else slice_to 35 (replace LF SP (strip cell)))
      /\ scan_tables ∅ (soup_tables soup) !! key = Some stored
      /\ regex_fallback model_url (soup_text soup) (scan_tables ∅ (soup_tables soup)) !! key
         = Some stored
      /\ get_model_specs model_url soup = Some specs
      /\ specs !! key = Some stored)
  /\ (forall (specs : gmap str str) (k : str),
         truthy_opt (specs !! k) = true ->
         regex_fallback model_url (soup_text soup) specs !! k = specs !! k).
Proof.
  intros Hin Hrow Himgs. split; [|intros specs k; apply regex_fallback_keeps].
  destruct (last_accepted_row _ _ _ _ Hin Hrow)
    as (before & last & after & stored & Hrows & Hlast & Hafter).
  destruct (scan_row_stored _ _ _ Hlast) as (label & cell & rest & Hcells & Hstored).
  assert (Ht1 : scan_tables ∅ (soup_tables soup) !! key = Some stored).
  { rewrite scan_tables_concat, Hrows. by apply foldl_scan_row_last. }
  destruct (table_field_returned model_url soup key stored Ht1 Himgs)
    as (Hfb & specs & Hget & Hspecs).
  by exists before, last, after, label, cell, rest, stored, specs.
Qed.

(** C2 (amended): an exception raised for one image reference is not caught
    at that item: when the first image that is neither skipped nor empty makes
    [urljoin] raise, the one handler of the function ends the extraction and
    nothing is returned, whatever the tables and the text held. *)
Theorem C2_exception_aborts_extraction (model_url : str) (soup : Soup)
    (skipped rest : list str) (img : str) :
  soup_imgs soup = skipped ++ img :: rest ->
  Forall (fun s => skip_image (strip s) = true) skipped ->
  skip_image (strip img) = false ->
  urljoin model_url (strip img) = Raise ->
  get_model_specs model_url soup = None.
Proof.
  intros Himgs Hskipped Himg Hraise.
  unfold get_model_specs, extract, image_reference. rewrite Himgs.
  set (specs := regex_fallback _ _ _). clearbody specs. clear Himgs.
  assert (Hmain : main_image model_url (skipped ++ img :: rest) specs = Raise).
  { induction Hskipped as [|s skipped Hs _ IH]; cbn.
    - by rewrite Himg, Hraise.
    - by rewrite Hs. }
  by rewrite Hmain.
Qed.

End Tier1Claims.

Lemma C1_last_accepted_value_witness :
  scan_tables (U:=ascii_unicode) (R:=sample_regex) ∅ (soup_tables (sample_page []))
    !! py "power" = Some (py "394 HP")
  /\ exists specs,
       get_model_specs (U:=ascii_unicode) (R:=sample_regex) (L:=sample_urllib)
         MODEL_URL (sample_page []) = Some specs
       /\ specs !! py "power" = Some (py "394 HP").
Proof.
  apply (C1_last_accepted_value_wins (U:=ascii_unicode) (R:=sample_regex)
           (L:=sample_urllib) MODEL_URL (sample_page [])
           (take 3 sample_rows) (drop 4 sample_rows)
           [py "Horsepower"; py "394 HP"] (py "power") (py "394 HP")).
  - reflexivity.
  - by vm_compute.
  - repeat constructor; by vm_compute.
  - constructor.
Defined.

(** C3 as stated fails: the row (Power, 300 HP) is accepted, yet the output
    holds the power of a later row; and with an image reference on which
    [urljoin] raises the output has no field at all. *)
Lemma C3_row_value_not_in_output :
  [py "Power"; py "300 HP"] ∈ concat (soup_tables (sample_page []))
  /\ scan_row (U:=ascii_unicode) (R:=sample_regex) ∅ [py "Power"; py "300 HP"] !! py "power"
     = Some (py "300 HP")
  /\ (get_model_specs (U:=ascii_unicode) (R:=sample_regex) (L:=sample_urllib)
        MODEL_URL (sample_page []) ≫= fun specs => specs !! py "power")
     = Some (py "394 HP")
  /\ get_model_specs (U:=ascii_unicode) (R:=sample_regex) (L:=sample_urllib)
       MODEL_URL (sample_page [py "http://[cdn/tt_rs.jpg"]) = None.
Proof.
  split; [|repeat split; by vm_compute].
  cbn. do 1 right. left.
Qed.

(** The year keeps the newline that [_ok_spec_val] replaces. *)
Example year_row_keeps_newline :
  _ok_spec_val (U:=ascii_unicode) (py " 2016" ++ [LF] ++ py "2023 ") 20 = Some (py "2016 2023")
  /\ (get_model_specs (U:=ascii_unicode) (R:=sample_regex) (L:=sample_urllib)
        MODEL_URL year_page ≫= fun specs => specs !! py "year")
     = Some (py "2016" ++ [LF] ++ py "2023").
Proof. split; by vm_compute. Qed.

Lemma C3_table_field_witness :
  (exists (before : list (list str)) (last : list str) (after : list (list str))
          (label cell : str) (rest : list str) (stored : str) (specs : gmap str str),
      concat (soup_tables year_page) = before ++ last :: after
      /\ last = label :: cell :: rest
      /\ scan_row (U:=ascii_unicode) (R:=sample_regex) ∅ last !! py "year" = Some stored
      /\ Forall (fun r => scan_row (U:=ascii_unicode) (R:=sample_regex) ∅ r !! py "year" = None)
           after
      /\ stored = (if bool_decide (py "year" = py "year") then slice_to 20 (strip cell)
                   else slice_to 35 (replace LF SP (strip cell)))
      /\ scan_tables (U:=ascii_unicode) (R:=sample_regex) ∅ (soup_tables year_page)
           !! py "year" = Some stored
      /\ regex_fallback (R:=sample_regex) MODEL_URL (soup_text year_page)
           (scan_tables (U:=ascii_unicode) (R:=sample_regex) ∅ (soup_tables year_page))
           !! py "year" = Some stored
      /\ get_model_specs (U:=ascii_unicode) (R:=sample_regex) (L:=sample_urllib)
           MODEL_URL year_page = Some specs
      /\ specs !! py "year" = Some stored)
  /\ (forall (specs : gmap str str) (k : str),
         truthy_opt (specs !! k) = true ->
         regex_fallback (R:=sample_regex) MODEL_URL (soup_text year_page) specs !! k
         = specs !! k).
Proof.
  apply (C3_table_field_survives_fallback (U:=ascii_unicode) (R:=sample_regex)
           (L:=sample_urllib) MODEL_URL year_page
           [py "Year"; py "2015-2022"] (py "year") (py "2015-2022")).
  - cbn. left.
  - by vm_compute.
  - repeat constructor; by vm_compute.
Defined.

(** C2 as stated fails: the page fills seven fields from its table; its second
    image reference makes [urljoin] raise, and the extraction returns nothing:
    neither the fields extracted before nor the image that follows. Without
    that reference the same page gives the fields and the image. *)
Lemma C2_one_bad_image_loses_all_fields :
  scan_tables (U:=ascii_unicode) (R:=sample_regex) ∅ [sample_rows] !! py "engine"
    = Some (py "2.5L TFSI")
  /\ sample_urljoin MODEL_URL (py "http://[cdn/tt_rs.jpg") = Raise
  /\ get_model_specs (U:=ascii_unicode) (R:=sample_regex) (L:=sample_urllib) MODEL_URL
       (sample_page [py "/img/logo.png"; py "http://[cdn/tt_rs.jpg"; py "/img/tt_rs_front.jpg"])
     = None
  /\ (size <$> get_model_specs (U:=ascii_unicode) (R:=sample_regex) (L:=sample_urllib)
                 MODEL_URL (sample_page [py "/img/logo.png"; py "/img/tt_rs_front.jpg"]))
     = Some 8%nat.
Proof. repeat split; by vm_compute. Qed.

Lemma C2_exception_aborts_witness :
  get_model_specs (U:=ascii_unicode) (R:=sample_regex) (L:=sample_urllib) MODEL_URL
    (sample_page [py "/img/logo.png"; py "http://[cdn/tt_rs.jpg"; py "/img/tt_rs_front.jpg"])
  = None.
Proof.
  apply (C2_exception_aborts_extraction (U:=ascii_unicode) (R:=sample_regex)
           (L:=sample_urllib) MODEL_URL _ [py "/img/logo.png"] [py "/img/tt_rs_front.jpg"]
           (py "http://[cdn/tt_rs.jpg")).
  - reflexivity.
  - repeat constructor.
  - reflexivity.
  - reflexivity.
Defined.

(** ** Tier 1: the acceptance rule *)

Section Acceptance.
Context {U : Unicode} {R : Regex}.

Lemma twin_turbo_rejected :
  _ok_spec_val (py "Twin-Turbo Coupe Variant") 35 = None.
Proof.
  unfold _ok_spec_val. cbv zeta.
  replace (slice_to 35 (replace LF SP (strip (py "Twin-Turbo Coupe Variant"))))
    with (py "Twin-Turbo Coupe Variant") by reflexivity.
  by rewrite lower_ascii.
Qed.

(** C5 (amended): in Tier 1 a cell value is accepted for a field only if, after
    the sanitization of the scan (stripped, newlines to spaces, cut to the cap
    of the field: 35 characters, and 20 for the year), it is non-empty, within
    that cap, and contains none of the reject-list substrings in lower case;
    what is stored is that sanitized value (for the year: the stripped value
    cut to 20 characters). The value "Twin-Turbo Coupe Variant" under an
    engine label is rejected, and the row leaves the set as it was. *)
Theorem C5_tier1_acceptance_rule :
  (forall (cells : list str) (key stored : str),
      scan_row ∅ cells !! key = Some stored ->
      exists label value rest accepted,
        cells = label :: value :: rest
        /\ _ok_spec_val value (cap_of key) = Some accepted
        /\ accepted = slice_to (cap_of key) (replace LF SP (strip value))
        /\ accepted <> []
        /\ len accepted <= cap_of key
        /\ existsb (fun x => contains x (lower accepted)) REJECT = false
        /\ stored = if bool_decide (key = py "year")
                    then slice_to 20 (strip value) else accepted)
  /\ (forall (specs : gmap str str) (label : str) (rest : list str),
         contains (py "engine") (lower label) = true ->
         scan_row specs (label :: py "Twin-Turbo Coupe Variant" :: rest) = specs).
Proof.
  split.
  - intros cells key stored (label & value & rest & -> & Hcase)%scan_row_accepts.
    exists label, value, rest.
    destruct Hcase as [[Hkey Hok] | (-> & Hok & _ & ->)].
    + exists stored. unfold cap_of. rewrite bool_decide_eq_false_2 by done.
      destruct (proj1 (_ok_spec_val_Some _ _ _) Hok) as (Hv & Ht & Hlen & Hrej).
      repeat split; try done. by destruct stored.
    + destruct (_ok_spec_val value 20) as [accepted|] eqn:Hacc; [|done].
      exists accepted. unfold cap_of. rewrite bool_decide_eq_true_2 by done.
      destruct (proj1 (_ok_spec_val_Some _ _ _) Hacc) as (Hv & Ht & Hlen & Hrej).
      repeat split; try done. by destruct accepted.
  - intros specs label rest Hlabel. unfold scan_row. cbv zeta.
    rewrite Hlabel. cbn [orb]. unfold store_if_ok. by rewrite twin_turbo_rejected.
Qed.

End Acceptance.

(** C5 as stated fails for the year: this value is accepted under a year label
    (its first 20 characters are digits and dashes), while its sanitization to
    35 characters contains "coupe" and is rejected by the 35-character rule. *)
Lemma C5_year_accepted_beyond_cap :
  scan_row (U:=ascii_unicode) (R:=sample_regex) ∅
    [py "Year"; py "2016-2017-2018-2019- coupe"] !! py "year"
    = Some (py "2016-2017-2018-2019-")
  /\ slice_to 35 (replace LF SP (strip (py "2016-2017-2018-2019- coupe")))
     = py "2016-2017-2018-2019- coupe"
  /\ contains (py "coupe") (lower (py "2016-2017-2018-2019- coupe")) = true
  /\ _ok_spec_val (U:=ascii_unicode) (py "2016-2017-2018-2019- coupe") 35 = None.
Proof. repeat split; by vm_compute. Qed.

Lemma C5_tier1_acceptance_witness :
  (exists label value rest accepted,
      [py "Weight"; py "  1450 kg "] = label :: value :: rest
      /\ _ok_spec_val (U:=ascii_unicode) value (cap_of (py "weight")) = Some accepted
      /\ accepted = slice_to (cap_of (py "weight")) (replace LF SP (strip value))
      /\ accepted <> []
      /\ len accepted <= cap_of (py "weight")
      /\ existsb (fun x => contains x (lower accepted)) REJECT = false
      /\ py "1450 kg" = if bool_decide (py "weight" = py "year")
                        then slice_to 20 (strip value) else accepted)
  /\ scan_row (U:=ascii_unicode) (R:=sample_regex) demo_specs
       [py "Engine type"; py "Twin-Turbo Coupe Variant"] = demo_specs.
Proof.
  split.
  - apply (proj1 (C5_tier1_acceptance_rule (U:=ascii_unicode) (R:=sample_regex))
             [py "Weight"; py "  1450 kg "] (py "weight") (py "1450 kg")).
    by vm_compute.
  - apply (proj2 (C5_tier1_acceptance_rule (U:=ascii_unicode) (R:=sample_regex))
             demo_specs (py "Engine type") []).
    by vm_compute.
Defined.

(** ** Properties of the composer *)

Lemma code_ok_truthy (country_code : str) :
  code_ok country_code = true -> truthy country_code = true.
Proof.
  unfold code_ok. by intros (((Ht & _)%andb_true_iff & _)%andb_true_iff & _)%andb_true_iff.
Qed.

Lemma FLAG_DEFINITIONS_wf (country_code : str) (definition : FlagDefinition) :
  FLAG_DEFINITIONS !! country_code = Some definition -> flag_wf definition = true.
Proof.
  assert (H : map_Forall (fun _ d => flag_wf d = true) FLAG_DEFINITIONS)
    by (apply (bool_decide_unpack _); by vm_compute).
  apply H.
Qed.

Lemma BRAND_COUNTRY_codes (brand country_code : str) :
  BRAND_COUNTRY !! brand = Some country_code -> code_ok country_code = true.
Proof.
  assert (H : map_Forall (fun _ cc => code_ok cc = true) BRAND_COUNTRY)
    by (apply (bool_decide_unpack _); by vm_compute).
  apply H.
Qed.

Lemma concat_imap_pairs {A B} (h : nat -> A -> list B) (f g : nat -> A -> B) (l : list A) :
  (forall i a, h i a = [f i a; g i a]) ->
  length (concat (imap h l)) = (2 * length l)%nat
  /\ forall i a, l !! i = Some a ->
       concat (imap h l) !! (2 * i)%nat = Some (f i a)
       /\ concat (imap h l) !! (2 * i + 1)%nat = Some (g i a).
Proof.
  revert h f g. induction l as [|x l IH]; intros h f g Hh; [done|].
  rewrite imap_cons. cbn [concat]. rewrite Hh.
  destruct (IH (h ∘ S) (f ∘ S) (g ∘ S)) as [Hlen Hget]; [intros; apply Hh|].
  split; [cbn; lia|].
  intros [|i] a Ha; [by injection Ha as <-|].
  replace (2 * S i)%nat with (S (S (2 * i))) by lia.
  replace (S (S (2 * i)) + 1)%nat with (S (S (2 * i + 1))) by lia.
  cbn. by apply Hget.
Qed.

Section FlagFacts.
Context {U : Unicode}.

Lemma draw_flag_returns (definition : FlagDefinition) (x y w h : Z) :
  flag_wf definition = true ->
  exists flag, draw_flag definition x y w h = Return flag /\ flag <> [].
Proof.
  destruct definition as [colors|colors|bg fg|bg fg]; cbn; intros Hwf;
    try (eexists; split; [done|done]).
  - destruct colors as [|c colors]; [done|]. unfold true_div.
    destruct (Z.eqb_spec (len (c :: colors)) 0) as [H0|_]; [by unfold len in H0|].
    cbn. eexists. split; done.
  - destruct colors as [|c colors]; [done|]. unfold true_div.
    destruct (Z.eqb_spec (len (c :: colors)) 0) as [H0|_]; [by unfold len in H0|].
    cbn. eexists. split; done.
Qed.

Lemma _draw_country_flag_returns (country_code : option str) (x y w h : Z) :
  exists flag, _draw_country_flag country_code x y w h = Return flag.
Proof.
  unfold _draw_country_flag. cbv zeta.
  set (code := slice_to 2 (upper (default [] country_code))).
  destruct (truthy code); cbn [negb]; [|by eexists].
  destruct (FLAG_DEFINITIONS !! code) as [definition|] eqn:Hdef; [|by eexists].
  destruct (draw_flag_returns definition x y w h) as (flag & -> & _);
    [by apply (FLAG_DEFINITIONS_wf _ _ Hdef)|by eexists].
Qed.

(** The flag of a code of the brand table. *)
Lemma _draw_country_flag_known (country_code : str) (x y w h : Z) :
  code_ok country_code = true ->
  exists definition flag,
    FLAG_DEFINITIONS !! country_code = Some definition
    /\ draw_flag definition x y w h = Return flag
    /\ flag <> []
    /\ _draw_country_flag (Some country_code) x y w h = Return flag.
Proof.
  unfold code_ok. intros (((Ht & Hascii)%andb_true_iff & Hup%bool_decide_eq_true)%andb_true_iff
                          & Hdef)%andb_true_iff.
  destruct (FLAG_DEFINITIONS !! country_code) as [definition|] eqn:Hlook; [|done].
  destruct (draw_flag_returns definition x y w h Hdef) as (flag & Hflag & Hne).
  exists definition, flag. repeat split; try done.
  unfold _draw_country_flag. cbv zeta. cbn [default].
  by rewrite (upper_ascii _ Hascii), Hup, Ht, Hlook.
Qed.

End FlagFacts.

(** ** The pixels of a flag *)

Lemma elem_of_pixels (x y w h : Z) (p : Z * Z) :
  in_rect x y w h p = true -> In p (pixels x y w h).
Proof.
  unfold in_rect, pixels. destruct p as [i j]. cbn [fst snd].
  rewrite !andb_true_iff, !Z.leb_le, !Z.ltb_lt. intros [[[? ?] ?] ?].
  apply in_flat_map. exists j. split.
  - apply list_elem_of_In, elem_of_seqZ. lia.
  - apply list_elem_of_In, list_elem_of_fmap. exists i. split; [done|].
    apply elem_of_seqZ. lia.
Qed.

Lemma rectangle_at_painted {P : Pillow} (ops : list DrawOp) (p : Z * Z) :
  rectangle_at ops p = true -> painted ops p = true.
Proof.
  unfold rectangle_at, painted. rewrite !existsb_exists.
  intros (op & Hin & Hop). exists op. split; [done|]. by destruct op.
Qed.

Lemma op_within_covers {P : Pillow} (x0 y0 x1 y1 : Z) (op : DrawOp) (p : Z * Z) :
  op_within x0 y0 x1 y1 op = true -> covers op p = true -> in_box x0 y0 x1 y1 p = true.
Proof.
  destruct op as [| |a b c d fill|a b c d fill|]; cbn [op_within covers]; try done;
    unfold in_box; rewrite ?andb_true_iff, ?Z.leb_le; intros; repeat split; lia.
Qed.

(** What the check [flag_fills] decides. *)
Lemma flag_fills_sound {P : Pillow} (x y w h : Z) (flag : list DrawOp) :
  flag_fills x y w h (Return flag) = true ->
  (forall p, in_rect x y w h p = true -> painted flag p = true)
  /\ (forall p, painted flag p = true -> in_box x y (x + w) (y + h) p = true).
Proof.
  unfold flag_fills. intros [Hfill Hin]%andb_true_iff. split.
  - intros p Hp. apply rectangle_at_painted.
    by apply (proj1 (forallb_forall _ _) Hfill), elem_of_pixels.
  - intros p. unfold painted. rewrite existsb_exists. intros (op & Hop & Hcov).
    apply (op_within_covers _ _ _ _ op); [|done].
    by apply (proj1 (forallb_forall _ _) Hin).
Qed.

(** On the default canvas the flag is asked for at [x = 1082] and at one of
    three heights; there every flag of the table fills its rectangle. *)
Lemma FLAG_DEFINITIONS_fill (country_code : str) (definition : FlagDefinition) (y : Z) :
  FLAG_DEFINITIONS !! country_code = Some definition ->
  y = 1232 \/ y = 1274 \/ y = 1316 ->
  flag_fills 1082 y 36 24 (draw_flag definition 1082 y 36 24) = true.
Proof.
  assert (H : map_Forall
                (fun _ d => forallb (fun y => flag_fills 1082 y 36 24 (draw_flag d 1082 y 36 24))
                              [1232; 1274; 1316] = true) FLAG_DEFINITIONS)
    by (apply (bool_decide_unpack _); by vm_compute).
  intros Hdef Hy. specialize (H _ _ Hdef). cbn [forallb] in H.
  apply andb_true_iff in H as [H0 [H1 [H2 _]%andb_true_iff]%andb_true_iff].
  by destruct Hy as [-> | [-> | ->]].
Qed.

Section ComposerFacts.
Context {U : Unicode} {P : Pillow} {W : Web}.
Variable self : PosterGenerator.

(** A key that is neither internal nor [image_url] is displayed as it is. *)
Lemma display_specs_lookup (specs : gmap str str) (key : str) :
  startswith (py "_") key = false -> key <> py "image_url" ->
  display_specs specs !! key = specs !! key.
Proof.
  intros Hint Himg. unfold display_specs. rewrite map_lookup_filter.
  destruct (specs !! key) as [v|]; [|done]. cbn. by rewrite option_guard_True.
Qed.

(** The items of a column are the rows of its populated fields, in order. *)
Lemma items_populated (specs : gmap str str) (fields : list (str * str)) :
  Forall (fun f => startswith (py "_") f.1 = false /\ f.1 <> py "image_url") fields ->
  flat_map (fun f => item (display_specs specs) f.1 f.2) fields
  = row_of specs <$> populated specs fields.
Proof.
  induction 1 as [|[key label] fields [Hint Himg] _ IH]; [done|].
  cbn [flat_map]. rewrite IH. unfold populated. rewrite filter_cons.
  unfold item. cbn [fst snd] in *. rewrite display_specs_lookup by done.
  unfold row_of at 2.
  destruct (specs !! key) as [v|] eqn:Hv.
  - rewrite decide_True by (by eexists). cbn. unfold row_of at 1. cbn. by rewrite Hv.
  - rewrite decide_False; [done|]. by intros [? ?].
Qed.

Lemma mid_items_populated (specs : gmap str str) :
  mid_items (display_specs specs) = row_of specs <$> populated specs MID_FIELDS.
Proof.
  unfold mid_items. apply items_populated.
  unfold MID_FIELDS. repeat constructor; str_neq.
Qed.

Lemma right_items_populated (specs : gmap str str) :
  right_items (display_specs specs) = row_of specs <$> populated specs RIGHT_FIELDS.
Proof.
  rewrite <- items_populated.
  - unfold right_items, RIGHT_FIELDS. cbn [flat_map fst snd]. by rewrite app_nil_r.
  - unfold RIGHT_FIELDS. repeat constructor; str_neq.
Qed.

Lemma draw_brand_flag_returns (brand : str) (items : list (str * str)) :
  exists flag, draw_brand_flag self brand items = Return flag.
Proof.
  unfold draw_brand_flag. cbv zeta.
  destruct (truthy_opt _); [apply _draw_country_flag_returns|by eexists].
Qed.

Lemma draw_body_returns (brand model : str) (specs : gmap str str) :
  canvas_ok self brand model = true ->
  draw_body self brand model specs = Return (drawn_before_flag self brand model specs).
Proof.
  unfold canvas_ok. rewrite !andb_true_iff, !Z.leb_le. intros [[[Hw Hh] Hx] Hy].
  unfold draw_body, new_image, draw_image_area, rectangle. cbv zeta.
  destruct (Z.ltb_spec (width self) 0); [lia|]. destruct (Z.ltb_spec (height self) 0); [lia|].
  cbn [orb mbind exc_bind].
  destruct (Z.ltb_spec (width self - margin self - 20) (margin self + 20)); [lia|].
  destruct (Z.ltb_spec (image_area_bottom self) (image_area_top self brand model)); [lia|].
  done.
Qed.

(** On any other canvas the composer raises before a row is drawn. *)
Lemma draw_body_raises (brand model : str) (specs : gmap str str) :
  canvas_ok self brand model = false -> draw_body self brand model specs = Raise.
Proof.
  unfold canvas_ok. rewrite !andb_false_iff, !Z.leb_gt. intros Hbad.
  unfold draw_body, new_image, draw_image_area, rectangle. cbv zeta.
  destruct (Z.ltb_spec (width self) 0); [done|]. destruct (Z.ltb_spec (height self) 0); [done|].
  cbn [orb mbind exc_bind].
  destruct (Z.ltb_spec (width self - margin self - 20) (margin self + 20)); [done|].
  destruct (Z.ltb_spec (image_area_bottom self) (image_area_top self brand model)); [done|].
  lia.
Qed.

Lemma generate_poster_returns (brand model : str) (specs : gmap str str) (output_path : str) :
  canvas_ok self brand model = true ->
  exists flag,
    draw_brand_flag self brand (right_items (display_specs specs)) = Return flag
    /\ generate_poster self brand model specs output_path
       = Return {| canvas := drawn_before_flag self brand model specs ++ flag;
                   format := save_format output_path |}.
Proof.
  intros Hok.
  destruct (draw_brand_flag_returns brand (right_items (display_specs specs))) as [flag Hflag].
  exists flag. split; [done|]. unfold generate_poster.
  by rewrite (draw_body_returns _ _ _ Hok), Hflag.
Qed.

Lemma generate_poster_raises (brand model : str) (specs : gmap str str) (output_path : str) :
  canvas_ok self brand model = false ->
  generate_poster self brand model specs output_path = Raise.
Proof. intros Hbad. unfold generate_poster. by rewrite (draw_body_raises _ _ _ Hbad). Qed.

(** The number of rows of the right column. *)
Lemma populated_right_cases (specs : gmap str str) :
  len (populated specs RIGHT_FIELDS) = 0 \/ len (populated specs RIGHT_FIELDS) = 1
  \/ len (populated specs RIGHT_FIELDS) = 2.
Proof.
  unfold populated, RIGHT_FIELDS. rewrite !filter_cons, filter_nil.
  repeat case_decide; unfold len; cbn; lia.
Qed.

(** When the car image is pasted, the margins left and right of it in the
    box of width [box_w] differ by at most one pixel, and so do the margins
    above and below it in the box of height [box_h]. *)
Lemma embed_image_centered (image_url : option str) (brand model : str) (x y nw nh : Z) :
  embed_image self image_url brand model = [Paste x y nw nh] ->
  0 <= (margin self + 20 + (width self - 2 * margin self - 40) - (x + nw))
       - (x - (margin self + 20)) <= 1
  /\ 0 <= (image_area_bottom self - (y + nh)) - (y - image_area_top self brand model) <= 1.
Proof.
  unfold embed_image.
  destruct (truthy_opt image_url); [|done].
  destruct (fetch_image _) as [[iw ih]|]; [|done].
  destruct (true_div _ iw) as [sw|]; [|done]. cbn.
  destruct (true_div _ ih) as [sh|]; [|done]. cbn.
  destruct (_ || _); [done|].
  intros [= <- <- <- <-].
  generalize (int_of_float (float_of_int iw * min3 sw sh one)) as nw.
  generalize (int_of_float (float_of_int ih * min3 sw sh one)) as nh.
  generalize (image_area_bottom self) as bottom.
  generalize (image_area_top self brand model) as top.
  generalize (margin self) as m. generalize (width self) as wd. intros.
  pose proof (Z.div_mod (wd - 2 * m - 40 - nw) 2 ltac:(lia)).
  pose proof (Z.mod_pos_bound (wd - 2 * m - 40 - nw) 2 ltac:(lia)).
  pose proof (Z.div_mod (bottom - top - nh) 2 ltac:(lia)).
  pose proof (Z.mod_pos_bound (bottom - top - nh) 2 ltac:(lia)).
  lia.
Qed.

(** The factor of the image is never above 1. *)
Lemma scale_factor_capped (brand model : str) (iw ih : Z) :
  PrimFloat.ltb PrimFloat.one (scale_factor self brand model iw ih) = false.
Proof.
  unfold scale_factor, min3. generalize (fmin (float_of_int (box_w self) / float_of_int iw)
                                           (float_of_int (box_h self brand model)
                                            / float_of_int ih)).
  intros m. unfold fmin at 1. by destruct (PrimFloat.ltb PrimFloat.one m) eqn:Hm.
Qed.

(** C9 (amended): a decoded image of [iw] x [ih] pixels whose sides scaled by
    the factor [min(box_w / iw, box_h / ih, 1.0)] and cut to whole pixels are
    at least 1 is resized to that size, with one factor for both sides and a
    factor that is never above 1.0, and is pasted centred in the box of
    [box_w] x [box_h] pixels at [(margin + 20, image_area_top)]: the margins on
    opposite sides differ by at most one pixel. *)
Theorem C9_image_scaled_and_centred (image_url brand model : str) (iw ih : Z) :
  truthy image_url = true ->
  fetch_image image_url = Some (iw, ih) ->
  iw <> 0 -> ih <> 0 ->
  1 <= scaled self brand model iw ih iw ->
  1 <= scaled self brand model iw ih ih ->
  exists x y,
    embed_image self (Some image_url) brand model
    = [Paste x y (scaled self brand model iw ih iw) (scaled self brand model iw ih ih)]
    /\ x = margin self + 20 + (box_w self - scaled self brand model iw ih iw) / 2
    /\ y = image_area_top self brand model
           + (box_h self brand model - scaled self brand model iw ih ih) / 2
    /\ PrimFloat.ltb PrimFloat.one (scale_factor self brand model iw ih) = false
    /\ 0 <= (margin self + 20 + box_w self - (x + scaled self brand model iw ih iw))
            - (x - (margin self + 20)) <= 1
    /\ 0 <= (image_area_top self brand model + box_h self brand model
             - (y + scaled self brand model iw ih ih))
            - (y - image_area_top self brand model) <= 1.
Proof.
  intros Hurl Hfetch Hiw Hih Hnw Hnh.
  assert (Hrun : embed_image self (Some image_url) brand model
                 = [Paste (margin self + 20
                           + (box_w self - scaled self brand model iw ih iw) / 2)
                          (image_area_top self brand model
                           + (box_h self brand model - scaled self brand model iw ih ih) / 2)
                          (scaled self brand model iw ih iw)
                          (scaled self brand model iw ih ih)]).
  { unfold embed_image. cbn [truthy_opt].
    change (default [] (Some image_url)) with image_url.
    rewrite Hurl, Hfetch. unfold true_div.
    destruct (Z.eqb_spec iw 0) as [?|_]; [done|].
    destruct (Z.eqb_spec ih 0) as [?|_]; [done|]. cbn [mbind exc_bind mret exc_ret].
    fold (box_w self). fold (box_h self brand model).
    fold (scale_factor self brand model iw ih).
    fold (scaled self brand model iw ih iw). fold (scaled self brand model iw ih ih).
    destruct (Z.ltb_spec (scaled self brand model iw ih iw) 1); [lia|].
    destruct (Z.ltb_spec (scaled self brand model iw ih ih) 1); [lia|]. done. }
  eexists _, _. split; [exact Hrun|]. split; [done|]. split; [done|].
  split; [apply scale_factor_capped|].
  destruct (embed_image_centered _ _ _ _ _ _ _ Hrun) as [Hx Hy].
  unfold box_w, box_h in *. split; lia.
Qed.

(** C6: for every specification set, on a canvas that admits the gray panel
    (the composer raises on any other, before a row is drawn), the poster is
    drawn, and after the header, the image panel and the year its canvas
    holds the middle column, the right column and the flag. Each of the two
    columns renders one label/value row per populated field of the column, in
    the fixed order of the column, and nothing else; row [i] of a column
    (counting from 0) has its label and its value at
    [spec_y_start + i * line_height], so the rows follow each other without a
    gap for an absent field. *)
Theorem C6_columns_render_populated_rows (brand model : str) (specs : gmap str str)
    (output_path : str) :
  canvas_ok self brand model = true ->
  (exists flag,
      draw_brand_flag self brand (right_items (display_specs specs)) = Return flag
      /\ generate_poster self brand model specs output_path
         = Return {| canvas :=
                       (draw_borders self ++ draw_header self brand model
                        ++ [panel self brand model]
                        ++ embed_image self (specs !! py "image_url") brand model
                        ++ draw_year self (display_specs specs))
                       ++ draw_mid self (row_of specs <$> populated specs MID_FIELDS)
                       ++ draw_right self (row_of specs <$> populated specs RIGHT_FIELDS)
                       ++ flag;
                     format := save_format output_path |})
  /\ length (draw_mid self (row_of specs <$> populated specs MID_FIELDS))
     = (2 * length (populated specs MID_FIELDS))%nat
  /\ length (draw_right self (row_of specs <$> populated specs RIGHT_FIELDS))
     = (2 * length (populated specs RIGHT_FIELDS))%nat
  /\ (forall (i : nat) (f : str * str),
         populated specs MID_FIELDS !! i = Some f ->
         exists x,
           draw_mid self (row_of specs <$> populated specs MID_FIELDS) !! (2 * i)%nat
           = Some (Text (mid_col_x self) (spec_y_start self + Z.of_nat i * line_height)
                        f.2 text_color label_font)
           /\ draw_mid self (row_of specs <$> populated specs MID_FIELDS) !! (2 * i + 1)%nat
              = Some (Text x (spec_y_start self + Z.of_nat i * line_height)
                           (_sanitize_spec_value (specs !! f.1) 18) text_color value_font))
  /\ (forall (i : nat) (f : str * str),
         populated specs RIGHT_FIELDS !! i = Some f ->
         exists x,
           draw_right self (row_of specs <$> populated specs RIGHT_FIELDS) !! (2 * i)%nat
           = Some (Text (right_col_x self) (spec_y_start self + Z.of_nat i * line_height)
                        f.2 text_color label_font)
           /\ draw_right self (row_of specs <$> populated specs RIGHT_FIELDS) !! (2 * i + 1)%nat
              = Some (Text x (spec_y_start self + Z.of_nat i * line_height)
                           (_sanitize_spec_value (specs !! f.1) 18) text_color value_font)).
Proof.
  intros Hok.
  pose proof (concat_imap_pairs
    (fun i lv =>
       [Text (mid_col_x self) (spec_y_start self + Z.of_nat i * line_height) lv.1
             text_color label_font;
        Text (mid_col_x self + col_width self - 10
              - Z.min (text_width value_font lv.2)
                      (mid_col_x self + col_width self - 10 - (mid_col_x self + 75 + 12)))
             (spec_y_start self + Z.of_nat i * line_height) lv.2 text_color value_font])
    _ _ (row_of specs <$> populated specs MID_FIELDS) (fun _ _ => eq_refl)) as [Hmlen Hmid].
  pose proof (concat_imap_pairs
    (fun i lv =>
       [Text (right_col_x self) (spec_y_start self + Z.of_nat i * line_height) lv.1
             text_color label_font;
        Text (r_val_end self
              - Z.min (text_width value_font lv.2) (col_width self - 110 - 15))
             (spec_y_start self + Z.of_nat i * line_height) lv.2 text_color value_font])
    _ _ (row_of specs <$> populated specs RIGHT_FIELDS) (fun _ _ => eq_refl)) as [Hrlen Hright].
  rewrite length_fmap in Hmlen, Hrlen.
  split; [|split; [exact Hmlen|split; [exact Hrlen|split]]].
  - destruct (generate_poster_returns brand model specs output_path Hok)
      as (flag & Hflag & Hgen).
    exists flag. split; [exact Hflag|]. rewrite Hgen. unfold drawn_before_flag.
    rewrite mid_items_populated, right_items_populated.
    do 2 f_equal. by rewrite <- !app_assoc.
  - intros i f Hf. eexists.
    apply (Hmid i (row_of specs f)). by rewrite list_lookup_fmap, Hf.
  - intros i f Hf. eexists.
    apply (Hright i (row_of specs f)). by rewrite list_lookup_fmap, Hf.
Qed.

(** C8: for a brand that is not in the brand table, on a canvas that admits
    the gray panel (the composer raises on any other, whatever the brand is),
    the poster is generated and the flag step draws nothing: the canvas is
    what is drawn before the flag. For a country code that is not in the flag
    table [_draw_country_flag] returns with nothing drawn. *)
Theorem C8_unknown_brand_or_country_draws_no_flag :
  (forall (brand model : str) (specs : gmap str str) (output_path : str),
      BRAND_COUNTRY !! lower (strip brand) = None ->
      canvas_ok self brand model = true ->
      draw_brand_flag self brand (right_items (display_specs specs)) = Return []
      /\ generate_poster self brand model specs output_path
         = Return {| canvas := drawn_before_flag self brand model specs;
                     format := save_format output_path |})
  /\ (forall (country_code : option str) (x y w h : Z),
         FLAG_DEFINITIONS !! slice_to 2 (upper (default [] country_code)) = None ->
         _draw_country_flag country_code x y w h = Return []).
Proof.
  split.
  - intros brand model specs output_path Hbrand Hok.
    assert (Hflag : draw_brand_flag self brand (right_items (display_specs specs)) = Return []).
    { unfold draw_brand_flag. cbv zeta. by rewrite Hbrand. }
    split; [done|].
    unfold generate_poster. rewrite (draw_body_returns _ _ _ Hok), Hflag.
    cbn [mbind exc_bind]. by rewrite app_nil_r.
  - intros country_code x y w h Hcode. unfold _draw_country_flag. cbv zeta.
    rewrite Hcode. by destruct (truthy _).
Qed.

(** C10: for a brand whose stripped, lower-cased name is in the brand table,
    on a canvas that admits the gray panel, the flag of its country is drawn
    after everything else, whatever fields are populated: it is drawn for
    the 36x24 rectangle at [x = r_val_end - 36] and
    [y = spec_y_start + n * line_height + 12], where [n] is the number of
    populated fields of the right column; with neither acceleration nor top
    speed that is [spec_y_start + 12]. On the default canvas of 1200x1600
    every pixel of that rectangle is set by the flag, and the flag sets no
    pixel outside the box of the corner points [(x, y)] and
    [(x + 36, y + 24)]. *)
Theorem C10_known_brand_flag_position (brand model : str) (specs : gmap str str)
    (output_path country_code : str) :
  BRAND_COUNTRY !! lower (strip brand) = Some country_code ->
  canvas_ok self brand model = true ->
  let x := r_val_end self - 36 in
  let y := spec_y_start self + len (populated specs RIGHT_FIELDS) * line_height + 12 in
  exists flag,
    _draw_country_flag (Some country_code) x y 36 24 = Return flag
    /\ generate_poster self brand model specs output_path
       = Return {| canvas := drawn_before_flag self brand model specs ++ flag;
                   format := save_format output_path |}
    /\ (specs !! py "acceleration_0_100" = None -> specs !! py "top_speed" = None ->
        y = spec_y_start self + 12)
    /\ (self = new_generator 1200 1600 ->
        (forall p, in_rect x y 36 24 p = true -> painted flag p = true)
        /\ (forall p, painted flag p = true -> in_box x y (x + 36) (y + 24) p = true)).
Proof.
  intros Hbrand Hcanvas x y.
  pose proof (BRAND_COUNTRY_codes _ _ Hbrand) as Hok.
  destruct (_draw_country_flag_known country_code x y 36 24 Hok)
    as (definition & flag & Hdef & Hdraw & Hne & Hflag).
  exists flag. split; [done|]. split; [|split].
  - unfold generate_poster, draw_brand_flag, flag_y.
    rewrite (draw_body_returns _ _ _ Hcanvas). cbv zeta. rewrite Hbrand.
    cbn [truthy_opt mbind exc_bind]. rewrite (code_ok_truthy _ Hok).
    rewrite right_items_populated. unfold len at 1. rewrite length_fmap.
    fold (len (populated specs RIGHT_FIELDS)). fold x. fold y. by rewrite Hflag.
  - intros Hacc Htop. unfold y, populated, RIGHT_FIELDS.
    rewrite !filter_cons, filter_nil. cbn [fst].
    rewrite !decide_False; [| |]; rewrite ?Hacc, ?Htop; try (by intros [? ?]).
    unfold len. cbn. lia.
  - intros Hself. apply flag_fills_sound. rewrite <- Hdraw.
    assert (Hx : x = 1082) by (unfold x; by rewrite Hself).
    assert (Hy : y = 1232 \/ y = 1274 \/ y = 1316).
    { unfold y. rewrite Hself. change (spec_y_start (new_generator 1200 1600)) with 1220.
      unfold line_height. destruct (populated_right_cases specs) as [-> | [-> | ->]]; lia. }
    rewrite Hx. by apply (FLAG_DEFINITIONS_fill country_code).
Qed.

End ComposerFacts.

(** On a canvas of 1200x500 the gray panel is inverted: the composer raises,
    whatever the brand and the fields are. *)
Example low_canvas_example :
  canvas_ok (U:=ascii_unicode) (P:=sample_pillow) (new_generator 1200 500)
    (py "Audi") (py "TT RS") = false
  /\ generate_poster (U:=ascii_unicode) (P:=sample_pillow) (W:=offline)
       (new_generator 1200 500) (py "Audi") (py "TT RS") demo_specs (py "poster.png")
     = Raise.
Proof. split; by vm_compute. Qed.

Lemma C6_columns_witness :
  exists x,
    draw_mid (P:=sample_pillow) (new_generator 1200 1600)
      (row_of (delete (py "power") demo_specs)
         <$> populated (delete (py "power") demo_specs) MID_FIELDS) !! 2%nat
    = Some (Text 456 (1220 + 1 * 42) (py "Torque") (py "#1a1a1a") label_font)
    /\ draw_mid (P:=sample_pillow) (new_generator 1200 1600)
         (row_of (delete (py "power") demo_specs)
            <$> populated (delete (py "power") demo_specs) MID_FIELDS) !! 3%nat
       = Some (Text x (1220 + 1 * 42) (py "480 Nm") (py "#1a1a1a") value_font).
Proof.
  assert (Hok : canvas_ok (U:=ascii_unicode) (P:=sample_pillow) (new_generator 1200 1600)
                  (py "Audi") (py "TT RS") = true) by (by vm_compute).
  assert (Hpop : populated (delete (py "power") demo_specs) MID_FIELDS !! 1%nat
                 = Some (py "torque", py "Torque")) by (by vm_compute).
  destruct (proj1 (proj2 (proj2 (proj2
              (C6_columns_render_populated_rows (U:=ascii_unicode) (P:=sample_pillow)
                 (W:=offline) (new_generator 1200 1600) (py "Audi") (py "TT RS")
                 (delete (py "power") demo_specs) (py "poster.png") Hok))))
              1%nat (py "torque", py "Torque") Hpop) as [x Hrow].
  exists x. vm_compute in Hrow |- *. exact Hrow.
Defined.

(** C9 as stated fails for a decodable banner of 3000x1 pixels: the factor is
    about 0.35, the scaled height [int(1 * scale)] is 0, the resize to an empty
    size raises, and no image is pasted. *)
Lemma C9_thin_banner_not_pasted :
  fetch_image (Web:=banner_server) (py "https://cdn.example.com/banner.png") = Some (3000, 1)
  /\ scaled (U:=ascii_unicode) (P:=sample_pillow) (new_generator 1200 1600)
       (py "Audi") (py "TT RS") 3000 1 3000 = 1040
  /\ scaled (U:=ascii_unicode) (P:=sample_pillow) (new_generator 1200 1600)
       (py "Audi") (py "TT RS") 3000 1 1 = 0
  /\ embed_image (U:=ascii_unicode) (P:=sample_pillow) (W:=banner_server)
       (new_generator 1200 1600) (Some (py "https://cdn.example.com/banner.png"))
       (py "Audi") (py "TT RS") = [].
Proof. repeat split; by vm_compute. Qed.

Lemma C9_image_scaled_witness :
  exists x y,
    embed_image (U:=ascii_unicode) (P:=sample_pillow) (W:=photo_server)
      (new_generator 1200 1600) (Some (py "https://cdn.example.com/tt_rs.jpg"))
      (py "Audi") (py "TT RS")
    = [Paste x y 1040 693]
    /\ x = 80 /\ y = 402
    /\ PrimFloat.ltb PrimFloat.one
         (scale_factor (U:=ascii_unicode) (P:=sample_pillow) (new_generator 1200 1600)
            (py "Audi") (py "TT RS") 3000 2000) = false
    /\ 0 <= (60 + 20 + 1040 - (x + 1040)) - (x - (60 + 20)) <= 1
    /\ 0 <= (317 + 863 - (y + 693)) - (y - 317) <= 1.
Proof.
  destruct (C9_image_scaled_and_centred (U:=ascii_unicode) (P:=sample_pillow)
              (W:=photo_server) (new_generator 1200 1600)
              (py "https://cdn.example.com/tt_rs.jpg") (py "Audi") (py "TT RS") 3000 2000)
    as (x & y & Hrun & Hx & Hy & Hcap & Hmx & Hmy); try (by vm_compute).
  exists x, y. vm_compute in Hx, Hy. subst x y.
  repeat split; first [by vm_compute | exact Hcap].
Defined.

Lemma C8_no_flag_witness :
  generate_poster (U:=ascii_unicode) (P:=sample_pillow) (W:=offline)
    (new_generator 1200 1600) (py "DeLorean") (py "DMC-12") demo_specs (py "poster.png")
  = Return {| canvas := drawn_before_flag (U:=ascii_unicode) (P:=sample_pillow) (W:=offline)
                          (new_generator 1200 1600) (py "DeLorean") (py "DMC-12") demo_specs;
              format := PNG |}
  /\ _draw_country_flag (U:=ascii_unicode) (Some (py "AU")) 1082 1316 36 24 = Return [].
Proof.
  split.
  - apply (proj1 (C8_unknown_brand_or_country_draws_no_flag (U:=ascii_unicode)
                    (P:=sample_pillow) (W:=offline) (new_generator 1200 1600))
             (py "DeLorean") (py "DMC-12") demo_specs (py "poster.png")); by vm_compute.
  - apply (proj2 (C8_unknown_brand_or_country_draws_no_flag (U:=ascii_unicode)
                    (P:=sample_pillow) (W:=offline) (new_generator 1200 1600))
             (Some (py "AU")) 1082 1316 36 24).
    by vm_compute.
Defined.

Lemma C10_known_brand_flag_witness :
  exists flag,
    _draw_country_flag (U:=ascii_unicode) (Some (py "FR")) 1082 1232 36 24 = Return flag
    /\ generate_poster (U:=ascii_unicode) (P:=sample_pillow) (W:=offline)
         (new_generator 1200 1600) (py " Bugatti ") (py "Chiron")
         (delete (py "acceleration_0_100") (delete (py "top_speed") demo_specs))
         (py "poster.png")
       = Return {| canvas :=
                     drawn_before_flag (U:=ascii_unicode) (P:=sample_pillow) (W:=offline)
                       (new_generator 1200 1600) (py " Bugatti ") (py "Chiron")
                       (delete (py "acceleration_0_100") (delete (py "top_speed") demo_specs))
                     ++ flag;
                   format := PNG |}
    /\ (forall p, in_rect 1082 1232 36 24 p = true -> painted (P:=sample_pillow) flag p = true)
    /\ (forall p, painted (P:=sample_pillow) flag p = true ->
                  in_box 1082 1232 (1082 + 36) (1232 + 24) p = true).
Proof.
  assert (Hbrand : BRAND_COUNTRY !! lower (strip (py " Bugatti ")) = Some (py "FR"))
    by (by vm_compute).
  assert (Hok : canvas_ok (U:=ascii_unicode) (P:=sample_pillow) (new_generator 1200 1600)
                  (py " Bugatti ") (py "Chiron") = true) by (by vm_compute).
  destruct (C10_known_brand_flag_position (U:=ascii_unicode) (P:=sample_pillow) (W:=offline)
              (new_generator 1200 1600) (py " Bugatti ") (py "Chiron")
              (delete (py "acceleration_0_100") (delete (py "top_speed") demo_specs))
              (py "poster.png") (py "FR") Hbrand Hok)
    as (flag & Hdraw & Hgen & _ & Hfill).
  destruct (Hfill eq_refl) as [Hin Hout].
  exists flag. split; [exact Hdraw|]. split; [exact Hgen|]. split; [exact Hin|exact Hout].
Defined.

(** ** The flag and its rectangle *)

Example audi_flag_example :
  draw_brand_flag (U:=ascii_unicode) (new_generator 1200 1600) (py "AUDI")
    (right_items (display_specs demo_specs))
  = Return [Rectangle 1082 1316 1118 1324 (py "#000000");
            Rectangle 1082 1324 1118 1332 (py "#DD0000");
            Rectangle 1082 1332 1118 1340 (py "#FFCE00")].
Proof. by vm_compute. Qed.

Example volvo_flag_example :
  draw_brand_flag (U:=ascii_unicode) (new_generator 1200 1600) (py "Volvo")
    (right_items (display_specs demo_specs))
  = _draw_country_flag (U:=ascii_unicode) (Some (py "SE")) 1082 1316 36 24.
Proof. by vm_compute. Qed.

(** The renderer of the cross and of the disc fills the box whose two corner
    points are [(x, y)] and [(x + w, y + h)], both included. *)
Lemma flag_background_reaches_far_corner {P : Pillow} (bg fg : str) (x y w h : Z) :
  0 <= w -> 0 <= h ->
  flag_paints (draw_flag (Kind_cross bg fg) x y w h) (x + w, y + h) = true
  /\ flag_paints (draw_flag (Kind_circle bg fg) x y w h) (x + w, y + h) = true
  /\ in_rect x y w h (x + w, y + h) = false.
Proof.
  intros Hw Hh. unfold flag_paints, draw_flag, painted, covers, in_box, in_rect.
  cbn [existsb fst snd]. repeat split.
  - apply orb_true_iff. left. rewrite !andb_true_iff, !Z.leb_le. lia.
  - apply orb_true_iff. left. rewrite !andb_true_iff, !Z.leb_le. lia.
  - rewrite !andb_false_iff, Z.ltb_ge. lia.
Qed.

(** C7 (evaluation at the failing input): the flag of Sweden that the poster
    of a Volvo draws for the 36x24 rectangle at (1082, 1316) sets the pixel
    (1118, 1340), which lies outside that rectangle: a filled Pillow rectangle
    includes both of its corner points, so the flag covers 37x25 pixels.
    Nor is the box with both corners the flag's extent for every size: the
    thirteen stripes of the flag of the United States in a rectangle of
    height 15 end at row 14 (the last band edge is [int(13 * (15 / 13))]),
    and row 15 of that box stays unpainted. *)
Theorem C7_flag_paints_outside_its_rectangle {U : Unicode} {P : Pillow} :
  _draw_country_flag (Some (py "SE")) 1082 1316 36 24
  = Return [Rectangle 1082 1316 1118 1340 (py "#006AA7");
            Rectangle 1096 1316 1103 1340 (py "#FECC00");
            Rectangle 1082 1326 1118 1330 (py "#FECC00")]
  /\ flag_paints (_draw_country_flag (Some (py "SE")) 1082 1316 36 24) (1118, 1340) = true
  /\ in_rect 1082 1316 36 24 (1118, 1340) = false
  /\ flag_paints (_draw_country_flag (Some (py "US")) 0 0 36 15) (0, 14) = true
  /\ flag_paints (_draw_country_flag (Some (py "US")) 0 0 36 15) (0, 15) = false
  /\ in_box 0 0 (0 + 36) (0 + 15) (0, 15) = true.
Proof.
  unfold _draw_country_flag. cbv zeta. cbn [default].
  rewrite !upper_ascii by reflexivity.
  repeat split; by vm_compute.
Qed.

Lemma flag_background_witness :
  flag_paints (P:=sample_pillow)
    (draw_flag (Kind_cross (py "#006AA7") (py "#FECC00")) 1082 1232 36 24) (1118, 1256) = true
  /\ flag_paints (P:=sample_pillow)
       (draw_flag (Kind_circle (py "#006AA7") (py "#FECC00")) 1082 1232 36 24) (1118, 1256)
     = true
  /\ in_rect 1082 1232 36 24 (1118, 1256) = false.
Proof.
  apply (flag_background_reaches_far_corner (P:=sample_pillow) _ _ 1082 1232 36 24); lia.
Defined.

(** * The page fetch, the scraper, the command line and the fonts *)

(** ** Properties of the page fetch *)

Lemma slice_to_app_within (n : Z) (a b : str) :
  len a <= n -> slice_to n (a ++ b) = a ++ slice_to (n - len a) b.
Proof.
  unfold slice_to, len. intros Hn.
  destruct (Z.leb_spec 0 n) as [_|?]; [|lia].
  destruct (Z.leb_spec 0 (n - Z.of_nat (length a))) as [_|?]; [|lia].
  rewrite take_app_ge by lia. do 2 f_equal. lia.
Qed.

Lemma contains_app (sub l r : str) : contains sub (l ++ sub ++ r) = true.
Proof. apply contains_spec. by exists l, r. Qed.

Lemma forallb_take (f : N -> bool) (n : nat) (s : str) :
  forallb f s = true -> forallb f (take n s) = true.
Proof.
  revert n. induction s as [|c s IH]; intros [|n]; cbn; try done.
  intros [-> Hs]%andb_true_iff. by apply IH.
Qed.

Lemma forallb_slice_to (f : N -> bool) (n : Z) (s : str) :
  forallb f s = true -> forallb f (slice_to n s) = true.
Proof. intros Hs. unfold slice_to. destruct (0 <=? n); by apply forallb_take. Qed.

Section BlockedFacts.
Context {U : Unicode}.

(** A response with the status 403 is blocked whatever its text is, and so is
    a response in whose first 2000 characters one of the markers lies: the
    texts "Just a moment" and "cf_chl" as they are, the word "challenge" of an
    ASCII text in any letter case. *)
Theorem blocked_by_status_or_marker :
  (forall response, status_code response = 403 ->
                    CarSpecScraper._is_blocked response = true)
  /\ (forall (response : Response) (pre marker post : str),
         text response = Some (pre ++ marker ++ post) ->
         len pre + len marker <= 2000 ->
         marker = py "Just a moment" \/ marker = py "cf_chl"
         \/ (forallb is_ascii (pre ++ marker ++ post) = true
             /\ ascii_lower <$> marker = py "challenge") ->
         CarSpecScraper._is_blocked response = true).
Proof.
  split.
  - intros response Hs. unfold CarSpecScraper._is_blocked. by rewrite Hs.
  - intros response pre marker post Ht Hlen Hm. unfold CarSpecScraper._is_blocked.
    destruct (status_code response =? 403); [done|]. rewrite Ht.
    change (default [] (Some (pre ++ marker ++ post))) with (pre ++ marker ++ post). cbv zeta.
    assert (Hcut : slice_to 2000 (pre ++ marker ++ post)
                   = pre ++ marker ++ slice_to (2000 - len (pre ++ marker)) post).
    { rewrite (assoc_L (++)), slice_to_app_within, <- (assoc_L (++)); [done|].
      unfold len in *. rewrite length_app. lia. }
    destruct Hm as [-> | [-> | [Hascii Hlow]]].
    + by rewrite Hcut, contains_app.
    + by rewrite Hcut, contains_app, orb_true_r.
    + rewrite (lower_ascii (slice_to 2000 _)) by by apply forallb_slice_to.
      rewrite Hcut, !fmap_app, Hlow, contains_app. by rewrite !orb_true_r.
Qed.


End BlockedFacts.

Lemma blocked_by_status_or_marker_witness :
  CarSpecScraper._is_blocked (U:=ascii_unicode)
    {| status_code := 200;
       text := Some (py "<html><title>" ++ py "Security CHALLENGE" ++ py "</title></html>") |}
  = true.
Proof.
  apply (proj2 (blocked_by_status_or_marker (U:=ascii_unicode)) _
           (py "<html><title>Security ") (py "CHALLENGE") (py "</title></html>")).
  - reflexivity.
  - by vm_compute.
  - right. right. by vm_compute.
Defined.


(** ** Properties of [search_brand] *)

Lemma replace_not_in (a b : N) (s : str) : a <> b -> a ∉ replace a b s.
Proof.
  intros Hab. unfold replace. intros (c & Hc & _)%list_elem_of_fmap.
  destruct (N.eqb_spec c a); congruence.
Qed.

Lemma replace_keeps_out (a b x : N) (s : str) : x ∉ s -> x <> b -> x ∉ replace a b s.
Proof.
  intros Hx Hb. unfold replace. intros (c & Hc & Hin)%list_elem_of_fmap.
  destruct (N.eqb_spec c a); [congruence|]. by subst.
Qed.

Lemma replace_absent (a b : N) (s : str) : a ∉ s -> replace a b s = s.
Proof.
  intros Ha. unfold replace. induction s as [|c s IH]; [done|].
  cbn. apply not_elem_of_cons in Ha as [Hc Hs].
  destruct (N.eqb_spec c a); [congruence|]. by rewrite IH.
Qed.

Lemma lstrip_clean (s : str) : starts_clean s -> lstrip s = s.
Proof. destruct s as [|c s]; [done|]. cbn. by intros ->. Qed.

Lemma lstrip_starts_clean (s : str) : starts_clean (lstrip s).
Proof.
  induction s as [|c s IH]; [done|]. cbn. by destruct (isspace c) eqn:Hc.
Qed.

Lemma lstrip_suffix (s : str) : exists l, s = l ++ lstrip s.
Proof.
  induction s as [|c s [l IH]]; [by exists []|]. cbn.
  destruct (isspace c); [|by exists []]. exists (c :: l). cbn. by rewrite <- IH.
Qed.

(** Removing leading white space leaves the end of a text as it is. *)
Lemma lstrip_keeps_end (s : str) : starts_clean (rev s) -> starts_clean (rev (lstrip s)).
Proof.
  destruct (lstrip_suffix s) as [l Hl]. destruct (lstrip s) as [|c t]; [done|].
  rewrite Hl, rev_app_distr. cbn [rev].
  destruct (rev t) as [|d u]; by cbn.
Qed.

Lemma strip_trimmed (s : str) : trimmed (strip s).
Proof.
  unfold trimmed, strip, rstrip. rewrite rev_involutive. split.
  - apply lstrip_keeps_end. rewrite rev_involutive. apply lstrip_starts_clean.
  - apply lstrip_starts_clean.
Qed.

Lemma strip_of_trimmed (s : str) : trimmed s -> strip s = s.
Proof.
  intros [Hs Hr]. unfold strip, rstrip.
  by rewrite (lstrip_clean s), (lstrip_clean (rev s)), rev_involutive.
Qed.

Lemma rev_fmap (f : N -> N) (s : str) : rev (f <$> s) = f <$> rev s.
Proof.
  induction s as [|c s IH]; [done|]. cbn [rev]. rewrite fmap_app, <- IH. by cbn.
Qed.

Lemma trimmed_fmap (f : N -> N) (s : str) :
  (forall c, isspace c = false -> isspace (f c) = false) ->
  trimmed s -> trimmed (f <$> s).
Proof.
  intros Hf [Hs Hr]. unfold trimmed. rewrite rev_fmap. split.
  - destruct s; [done|]. by apply Hf.
  - destruct (rev s); [done|]. by apply Hf.
Qed.

Lemma Forall_lstrip (P : N -> Prop) (s : str) : Forall P s -> Forall P (lstrip s).
Proof.
  induction 1 as [|c s Hc Hs IH]; [done|]. cbn. destruct (isspace c); [done|by constructor].
Qed.

Lemma Forall_strip (P : N -> Prop) (s : str) : Forall P s -> Forall P (strip s).
Proof.
  intros Hs. unfold strip, rstrip.
  apply Forall_rev, Forall_lstrip, Forall_rev, Forall_lstrip, Hs.
Qed.

Lemma lstrip_fmap (f : N -> N) (s : str) :
  (forall c, isspace (f c) = isspace c) -> lstrip (f <$> s) = f <$> lstrip s.
Proof.
  intros Hf. induction s as [|c s IH]; [done|]. cbn. rewrite Hf.
  by destruct (isspace c).
Qed.

Lemma strip_fmap (f : N -> N) (s : str) :
  (forall c, isspace (f c) = isspace c) -> strip (f <$> s) = f <$> strip s.
Proof.
  intros Hf. unfold strip, rstrip.
  by rewrite lstrip_fmap, rev_fmap, lstrip_fmap, rev_fmap.
Qed.

Lemma isspace_letter (c : N) : (65 <= c <= 122)%N -> isspace c = false.
Proof.
  intros Hc. unfold isspace.
  rewrite (proj2 (N.leb_gt c 13)), (proj2 (N.leb_gt c 32)) by lia.
  rewrite (proj2 (N.eqb_neq c 133)), (proj2 (N.eqb_neq c 160)) by lia.
  rewrite (proj2 (N.eqb_neq c 5760)), (proj2 (N.leb_gt 8192 c)) by lia.
  rewrite (proj2 (N.eqb_neq c 8232)), (proj2 (N.eqb_neq c 8233)) by lia.
  rewrite (proj2 (N.eqb_neq c 8239)), (proj2 (N.eqb_neq c 8287)) by lia.
  rewrite (proj2 (N.eqb_neq c 12288)) by lia.
  by rewrite !andb_false_r.
Qed.

Lemma isspace_ascii_lower (c : N) : isspace (ascii_lower c) = isspace c.
Proof.
  unfold ascii_lower.
  destruct (N.leb_spec 65 c); [|done]. destruct (N.leb_spec c 90); [|done]. cbn.
  by rewrite !isspace_letter by lia.
Qed.

Lemma ascii_lower_idemp (c : N) : ascii_lower (ascii_lower c) = ascii_lower c.
Proof.
  unfold ascii_lower.
  destruct (N.leb_spec 65 c); cbn; [destruct (N.leb_spec c 90); cbn|].
  - destruct (N.leb_spec 65 (c + 32)); cbn; [|done].
    destruct (N.leb_spec (c + 32) 90); [lia|done].
  - destruct (N.leb_spec 65 c); [|lia]. destruct (N.leb_spec c 90); [lia|done].
  - destruct (N.leb_spec 65 c); [lia|done].
Qed.

Lemma lowered_ascii_lower (c : N) : is_ascii c = true -> lowered (ascii_lower c).
Proof.
  intros Hc. split; [|apply ascii_lower_idemp].
  unfold is_ascii, ascii_lower in *. apply N.ltb_lt in Hc. apply N.ltb_lt.
  destruct (N.leb_spec 65 c); cbn; [destruct (N.leb_spec c 90); cbn|]; lia.
Qed.

Lemma lowered_replace (a : N) (s : str) :
  Forall lowered s -> Forall lowered (replace a UNDERSCORE s).
Proof.
  intros Hs. unfold replace. apply Forall_fmap. eapply Forall_impl; [exact Hs|].
  intros c Hc. cbn. by destruct (c =? a)%N.
Qed.

Lemma lower_lowered {U : Unicode} (s : str) : Forall lowered s -> lower s = s.
Proof.
  intros Hs. rewrite lower_ascii.
  - induction Hs as [|c s [_ Hc] _ IH]; [done|]. cbn. by rewrite Hc, IH.
  - apply forallb_forall. intros c Hc%list_elem_of_In.
    by apply (proj1 (Forall_forall _ _) Hs c).
Qed.

Lemma replace_keeps_trimmed (a : N) (s : str) : trimmed s -> trimmed (replace a UNDERSCORE s).
Proof.
  apply trimmed_fmap. intros c Hc. by destruct (c =? a)%N.
Qed.

Section SearchFacts.
Context {U : Unicode} {T : Titlecase}.


Lemma search_brand_one (brand model_slug : str) :
  model_slug <> [] ->
  CarSpecScraper.search_brand brand (Some model_slug)
  = [{| name := brand ++ py " " ++ title (replace UNDERSCORE SP model_slug);
        url := BASE_URL ++ py "/model/" ++ replace SP UNDERSCORE (strip (lower brand))
               ++ py "/"
               ++ replace HYPHEN UNDERSCORE (replace SP UNDERSCORE (strip (lower model_slug)))
               ++ py ".html" |}].
Proof. by destruct model_slug. Qed.

Lemma search_brand_url (brand model_slug : str) :
  model_slug <> [] ->
  url <$> CarSpecScraper.search_brand brand (Some model_slug)
  = [BASE_URL ++ py "/model/" ++ replace SP UNDERSCORE (strip (lower brand)) ++ py "/"
     ++ replace HYPHEN UNDERSCORE (replace SP UNDERSCORE (strip (lower model_slug)))
     ++ py ".html"].
Proof. by destruct model_slug. Qed.


End SearchFacts.



(** ** Properties of [_extract_models_from_soup] *)

Lemma contains_domain (full_url : str) :
  contains BASE_URL full_url = true ->
  contains (py "automobile-catalog.com") full_url = true.
Proof.
  intros (l & r & ->)%contains_spec. apply contains_spec.
  exists (l ++ py "https://www."), r. by rewrite <- (assoc_L (++)).
Qed.

(** The run returned: its result is the value returned. *)
Ltac returned := let H := fresh in intros H; injection H; clear H; intros; subst.

Section ModelsFacts.
Context {U : Unicode} {L : Urllib}.

Lemma visit_link_inv (links : list (str * str)) (brand_lower : str)
    (state state' : list ModelEntry * gset str) (link : str * str) :
  link ∈ links -> models_inv links state ->
  CarSpecScraper.visit_link brand_lower state link = Return state' ->
  models_inv links state'.
Proof.
  intros Hlink Hinv. unfold CarSpecScraper.visit_link.
  destruct state as [models seen_urls]. cbv zeta.
  destruct (negb (truthy link.2)) eqn:Ht; cbn [orb]; [by returned|].
  destruct (Z.ltb_spec (len link.2) 2) as [?|H2]; cbn [orb]; [by returned|].
  destruct (bool_decide (link.2 ∈ SKIP_LINK_TEXTS)) eqn:Hskip; [by returned|].
  destruct (urljoin BASE_URL (strip link.1)) as [full_url|] eqn:Hjoin; [|done].
  cbn [mbind exc_bind].
  destruct (contains BASE_URL full_url) eqn:Hbase; cbn [negb orb]; [|by returned].
  destruct (negb (contains _ full_url)); [by returned|].
  destruct (_ || _); [|by returned].
  destruct (bool_decide (full_url ∈ seen_urls)) eqn:Hseen; cbn [negb andb];
    [by returned|].
  destruct (Z.ltb_spec (len link.2) 120) as [H120|?]; [|by returned].
  returned. unfold models_inv in *. cbn [fst snd] in *.
  destruct Hinv as (Hset & Hdup & Hall).
  apply bool_decide_eq_false in Hseen, Hskip.
  split; [|split].
  - intros u. rewrite fmap_app, elem_of_app, elem_of_union, elem_of_singleton, Hset.
    cbn. rewrite list_elem_of_singleton. tauto.
  - rewrite fmap_app. apply NoDup_app. split; [done|]. split; [|apply NoDup_singleton].
    intros u Hu ->%list_elem_of_singleton. by apply Hseen, Hset.
  - apply Forall_app. split; [done|]. apply Forall_singleton. split.
    + by exists link.
    + repeat split; cbn; [lia|lia|done|done].
Qed.

Lemma models_inv_init (links : list (str * str)) : models_inv links ([], ∅).
Proof.
  split; [|split]; [|constructor|constructor].
  intros u. cbn. split; [by intros ?%elem_of_empty|by intros ?%elem_of_nil].
Qed.

Lemma visit_links_inv (links all : list (str * str)) (brand_lower : str)
    (state state' : list ModelEntry * gset str) :
  links ⊆ all -> models_inv all state ->
  CarSpecScraper.visit_links brand_lower state links = Return state' ->
  models_inv all state'.
Proof.
  revert state. induction links as [|link rest IH]; intros state Hsub Hinv; cbn.
  - by returned.
  - destruct (CarSpecScraper.visit_link brand_lower state link) as [mid|] eqn:Hmid; [|done].
    cbn [mbind exc_bind]. apply IH; [by intros x Hx; apply Hsub; right|].
    apply (visit_link_inv all brand_lower state mid link); [apply Hsub; left|done..].
Qed.


Lemma visit_link_grows (brand_lower : str) (state state' : list ModelEntry * gset str)
    (link : str * str) :
  CarSpecScraper.visit_link brand_lower state link = Return state' ->
  exists more, state'.1 = state.1 ++ more.
Proof.
  unfold CarSpecScraper.visit_link. destruct state as [models seen_urls]. cbv zeta.
  destruct (_ || _); [returned; by exists []; rewrite app_nil_r|].
  destruct (urljoin BASE_URL (strip link.1)) as [full_url|]; [|done].
  cbn [mbind exc_bind].
  repeat (match goal with
          | |- context [if ?b then _ else _] => destruct b
          end; try (returned; by exists []; rewrite app_nil_r)).
  returned. by eexists.
Qed.

Lemma visit_links_grow (brand_lower : str) (links : list (str * str))
    (state state' : list ModelEntry * gset str) :
  CarSpecScraper.visit_links brand_lower state links = Return state' ->
  exists more, state'.1 = state.1 ++ more.
Proof.
  revert state. induction links as [|link rest IH]; intros state; cbn.
  - returned. exists []. by rewrite app_nil_r.
  - destruct (CarSpecScraper.visit_link brand_lower state link) as [mid|] eqn:Hmid; [|done].
    cbn [mbind exc_bind]. intros [more2 ->]%IH.
    destruct (visit_link_grows _ _ _ _ Hmid) as [more1 ->].
    exists (more1 ++ more2). by rewrite (assoc_L (++)).
Qed.

Lemma visit_links_app (brand_lower : str) (before after : list (str * str))
    (state state' : list ModelEntry * gset str) :
  CarSpecScraper.visit_links brand_lower state (before ++ after) = Return state' ->
  exists mid, CarSpecScraper.visit_links brand_lower state before = Return mid
              /\ CarSpecScraper.visit_links brand_lower mid after = Return state'.
Proof.
  revert state. induction before as [|link rest IH]; intros state; cbn.
  - intros Hrun. by exists state.
  - destruct (CarSpecScraper.visit_link brand_lower state link) as [mid|]; [|done].
    cbn [mbind exc_bind]. apply IH.
Qed.


End ModelsFacts.



(** ** Properties of the browser fallback *)

Section BrowserFacts.
Context {B : Selenium}.

Lemma wait_for_page_clean (driver : Driver) (url : str) (rounds reads reads' : nat)
    (html : str) :
  wait_for_page driver url rounds reads = Return (Some html, reads') ->
  challenge html = false.
Proof.
  revert reads. induction rounds as [|rounds IH]; intros reads; cbn [wait_for_page]; [done|].
  destruct (page_source driver url reads) as [first|]; [|done]. cbn [mbind exc_bind].
  destruct (challenge first); [apply IH|].
  destruct (len first >? 5000); [|apply IH].
  destruct (page_source driver url (reads + 1)) as [second|]; [|done]. cbn [mbind exc_bind].
  destruct (contains (py "Just a moment") second) eqn:H1; cbn [negb andb]; [apply IH|].
  destruct (contains (py "Checking your browser") second) eqn:H2; cbn [negb andb];
    [apply IH|].
  intros [= <- _]. unfold challenge. by rewrite H1, H2.
Qed.


End BrowserFacts.


(** ** Properties of the fetch in [get_model_specs] *)

Section ScraperFacts.
Context {U : Unicode} {R : Regex} {L : Urllib}.
Context {Q : Requests} {B : Selenium} {M : HtmlParser}.

Lemma scraper_get_model_specs_unfold (model_url : str) (response : Response) :
  session_get model_url = Return response ->
  CarSpecScraper.get_model_specs model_url
  = parsed model_url
      (match (if CarSpecScraper._is_blocked response
              then _fetch_with_selenium model_url else None) with
       | None => if ok response then text response else None
       | Some html => Some html
       end).
Proof.
  intros Hget. unfold CarSpecScraper.get_model_specs. rewrite Hget. cbv zeta.
  unfold parsed.
  destruct (CarSpecScraper._is_blocked response);
    [destruct (_fetch_with_selenium model_url) as [[|c html]|]; try done|];
    destruct (ok response); try done; by destruct (text response) as [[|c' html']|].
Qed.



End ScraperFacts.



(** ** Properties of [main] *)

Section MainFacts.
Context {U : Unicode} {T : Titlecase} {R : Regex} {L : Urllib}.
Context {Q : Requests} {B : Selenium} {M : HtmlParser} {P : Pillow} {W : Web}.

Lemma candidates_nonempty (brand model : str) :
  model <> [] -> candidates brand model <> [].
Proof.
  intros Hmodel. unfold candidates. cbv zeta.
  destruct (known_models _ _ _); [|done].
  unfold CarSpecScraper.search_brand. by destruct model.
Qed.

Lemma try_candidates_spec (models : list ModelEntry) (first : ModelEntry)
    (specs0 : option (gmap str str)) :
  truthy_specs specs0 = false ->
  (exists before selected after,
      models = before ++ selected :: after
      /\ Forall fails before
      /\ truthy_specs (CarSpecScraper.get_model_specs (url selected)) = true
      /\ try_candidates models first specs0
         = (selected, CarSpecScraper.get_model_specs (url selected)))
  \/ (Forall fails models
      /\ exists specs, truthy_specs specs = false
                       /\ try_candidates models first specs0 = (first, specs)).
Proof.
  revert specs0. induction models as [|candidate rest IH]; intros specs0 H0.
  - right. split; [constructor|]. by exists specs0.
  - cbn [try_candidates]. cbv zeta.
    destruct (truthy_specs (CarSpecScraper.get_model_specs (url candidate))) eqn:Hc.
    + left. exists [], candidate, rest. repeat split; [constructor|done].
    + destruct (IH _ Hc) as [(before & selected & after & -> & Hbefore & Hsel & Hrun)
                             | (Hall & specs & Hspecs & Hrun)].
      * left. exists (candidate :: before), selected, after.
        repeat split; [by constructor|done|done].
      * right. split; [by constructor|]. by exists specs.
Qed.



End MainFacts.



(** ** Properties of [_get_font] *)

Section FontFacts.
Context {F : FontFiles}.

Lemma try_font_spec (size : Z) (bold : bool) (entry : str * str) (font : LoadedFont) :
  try_font size bold entry = Return (Some font) -> font_from size bold entry font.
Proof.
  unfold try_font, font_from, truetype. destruct entry as [regular bold_font]. cbn [fst snd].
  destruct bold; cbn [andb].
  - destruct (path_exists bold_font) eqn:Hb.
    + destruct (loads bold_font size) eqn:Hl; [|done]. cbn. returned. by left.
    + destruct (path_exists regular) eqn:Hr; [|done].
      destruct (loads regular size) eqn:Hl; [|done]. cbn [mbind exc_bind].
      destruct (loads regular (int_of_float (PrimFloat.mul (float_of_int size) f_1_1)))
        eqn:Hl'; [|done].
      cbn. returned. right. by left.
  - destruct (path_exists regular) eqn:Hr; [|done].
    destruct (loads regular size) eqn:Hl; [|done]. cbn. returned. by do 2 right.
Qed.

Lemma first_font_spec (size : Z) (bold : bool) (paths : list (str * str)) :
  first_font size bold paths = Default
  \/ exists entry, entry ∈ paths /\ font_from size bold entry (first_font size bold paths).
Proof.
  induction paths as [|entry rest IH]; [by left|]. cbn [first_font].
  destruct (try_font size bold entry) as [[font|]|] eqn:Htry.
  - right. exists entry. split; [left|]. by apply try_font_spec.
  - destruct IH as [-> | (e & He & Hfont)]; [by left|]. right. exists e. split; [by right|done].
  - destruct IH as [-> | (e & He & Hfont)]; [by left|]. right. exists e. split; [by right|done].
Qed.

Lemma first_font_default (size : Z) (bold : bool) (paths : list (str * str)) :
  Forall (fun entry => path_exists entry.1 = false /\ path_exists entry.2 = false) paths ->
  first_font size bold paths = Default.
Proof.
  induction 1 as [|[regular bold_font] rest [Hr Hb] _ IH]; [done|].
  cbn [first_font try_font fst snd] in *. rewrite Hr, Hb. by rewrite andb_false_r.
Qed.


End FontFacts.

Example bold_from_regular_example :
  _get_font (F:=arial_only) 64 true = TrueType (py "C:/Windows/Fonts/arial.ttf") 70
  /\ _get_font (F:=arial_only) 26 true = TrueType (py "C:/Windows/Fonts/arial.ttf") 28
  /\ _get_font (F:=arial_only) 24 false = TrueType (py "C:/Windows/Fonts/arial.ttf") 24.
Proof. repeat split; by vm_compute. Qed.


(** ** More on the sanitizer *)

Lemma not_elem_of_take (x : N) (n : nat) (s : str) : x ∉ s -> x ∉ take n s.
Proof. intros Hx Hin. apply Hx. by apply (subseteq_take n s). Qed.

Lemma not_elem_of_slice_to (x : N) (n : Z) (s : str) : x ∉ s -> x ∉ slice_to n s.
Proof. intros Hx. unfold slice_to. destruct (0 <=? n); by apply not_elem_of_take. Qed.

Lemma normalized_no_line_break (v : str) : (LF ∉ normalized v) /\ (CR ∉ normalized v).
Proof.
  unfold normalized. split.
  - apply replace_keeps_out; [by apply replace_not_in|done].
  - by apply replace_not_in.
Qed.

Lemma replace_space_keeps_trimmed (a : N) (s : str) :
  isspace a = true -> trimmed s -> trimmed (replace a SP s).
Proof.
  intros Ha. apply trimmed_fmap. intros c Hc.
  destruct (N.eqb_spec c a) as [->|_]; [congruence|done].
Qed.

Lemma normalized_trimmed (v : str) : trimmed (normalized v).
Proof.
  unfold normalized. do 2 (apply replace_space_keeps_trimmed; [done|]). apply strip_trimmed.
Qed.

Lemma normalized_fixed (s : str) :
  trimmed s -> LF ∉ s -> CR ∉ s -> normalized s = s.
Proof.
  intros Ht Hlf Hcr. unfold normalized.
  by rewrite (strip_of_trimmed s Ht), (replace_absent LF SP s Hlf), (replace_absent CR SP s Hcr).
Qed.

Lemma starts_clean_take (n : nat) (s : str) : starts_clean s -> starts_clean (take n s).
Proof. destruct s, n; by cbn. Qed.



(** ** The country code of a flag *)

Lemma ascii_upper_idemp (c : N) : ascii_upper (ascii_upper c) = ascii_upper c.
Proof.
  unfold ascii_upper.
  destruct (N.leb_spec 97 c); cbn; [destruct (N.leb_spec c 122); cbn|].
  - destruct (N.leb_spec 97 (c - 32)); cbn; [|done].
    destruct (N.leb_spec (c - 32) 122); [lia|done].
  - destruct (N.leb_spec 97 c); [|lia]. destruct (N.leb_spec c 122); [lia|done].
  - destruct (N.leb_spec 97 c); [lia|done].
Qed.

Lemma fmap_ascii_upper_idemp (s : str) :
  ascii_upper <$> (ascii_upper <$> s) = ascii_upper <$> s.
Proof. induction s as [|c s IH]; [done|]. cbn. by rewrite ascii_upper_idemp, IH. Qed.

Lemma is_ascii_upper (c : N) : is_ascii c = true -> is_ascii (ascii_upper c) = true.
Proof.
  unfold is_ascii, ascii_upper. rewrite !N.ltb_lt. intros Hc.
  destruct (N.leb_spec 97 c); cbn; [destruct (N.leb_spec c 122); cbn|]; lia.
Qed.

Lemma slice_to_idemp (n : Z) (s : str) : 0 <= n -> slice_to n (slice_to n s) = slice_to n s.
Proof.
  intros Hn. unfold slice_to. destruct (Z.leb_spec 0 n); [|lia]. by rewrite take_take, Nat.min_id.
Qed.



(** ** More on the extractor *)

Section ExtractorInvariants.
Context {U : Unicode} {R : Regex} {L : Urllib}.


Ltac sets_only_tac :=
  intros specs k Hk; destruct (missing _ _); [|done];
  repeat case_match; by rewrite ?lookup_insert_ne.

Lemma fallback_engine_sets (text : str) : sets_only (py "engine") (fallback_engine text).
Proof. unfold fallback_engine. sets_only_tac. Qed.
Lemma fallback_power_sets (text : str) : sets_only (py "power") (fallback_power text).
Proof. unfold fallback_power. sets_only_tac. Qed.
Lemma fallback_torque_sets (text : str) : sets_only (py "torque") (fallback_torque text).
Proof. unfold fallback_torque. sets_only_tac. Qed.
Lemma fallback_weight_sets (text : str) : sets_only (py "weight") (fallback_weight text).
Proof. unfold fallback_weight. sets_only_tac. Qed.
Lemma fallback_acceleration_sets (text : str) :
  sets_only (py "acceleration_0_100") (fallback_acceleration text).
Proof. unfold fallback_acceleration. sets_only_tac. Qed.
Lemma fallback_top_speed_sets (text : str) :
  sets_only (py "top_speed") (fallback_top_speed text).
Proof. unfold fallback_top_speed. sets_only_tac. Qed.
Lemma fallback_year_sets (model_url text : str) :
  sets_only (py "year") (fallback_year model_url text).
Proof. unfold fallback_year. sets_only_tac. Qed.

Lemma regex_fallback_keys (model_url text : str) (specs : gmap str str) (k : str) :
  k ∉ TABLE_KEYS -> regex_fallback model_url text specs !! k = specs !! k.
Proof.
  intros Hk. unfold regex_fallback.
  assert (Hne : forall key, key ∈ TABLE_KEYS -> k <> key) by (by intros key Hkey ->).
  rewrite fallback_year_sets, fallback_top_speed_sets, fallback_acceleration_sets,
    fallback_weight_sets, fallback_torque_sets, fallback_power_sets, fallback_engine_sets;
    try done; apply Hne; unfold TABLE_KEYS; cbn [fmap list_fmap];
    repeat first [by left | right].
Qed.

Lemma image_key (model_url : str) (imgs : list str) (specs out : gmap str str) (k : str) :
  image_reference model_url imgs specs = Return out ->
  is_Some (out !! k) -> is_Some (specs !! k) \/ k = py "image_url".
Proof.
  intros Hrun Hk. destruct (decide (k = py "image_url")) as [->|Hne]; [by right|].
  left. by rewrite <- (image_reference_frame _ _ _ _ k Hrun Hne).
Qed.



Lemma main_image_skips (model_url : str) (imgs : list str) (specs : gmap str str) :
  Forall (fun i => skip_image (strip i) = true) imgs ->
  main_image model_url imgs specs = Return specs.
Proof. induction 1 as [|i rest Hi _ IH]; [done|]. cbn. by rewrite Hi. Qed.

Lemma any_image_first_long (model_url : str) (before after : list str)
    (img full_img_url : str) (specs : gmap str str) :
  Forall (fun i => len (strip i) <= 10) before ->
  10 < len (strip img) ->
  urljoin model_url (strip img) = Return full_img_url ->
  any_image model_url (before ++ img :: after) specs
  = Return (<[py "image_url" := full_img_url]> specs).
Proof.
  intros Hshort Hlong Hjoin. induction Hshort as [|i rest Hi _ IH]; cbn.
  - destruct (strip img) as [|c s] eqn:Hs; [unfold len in Hlong; cbn in Hlong; lia|].
    cbn [truthy andb]. destruct (Z.gtb_spec (len (c :: s)) 10); [|lia].
    by rewrite Hjoin.
  - destruct (Z.gtb_spec (len (strip i)) 10); [lia|]. by rewrite andb_false_r.
Qed.


End ExtractorInvariants.

(** ** More on the composer *)

Lemma endswith_spec (p s : str) :
  endswith p s = true <-> exists stem, s = stem ++ p.
Proof.
  unfold endswith. rewrite startswith_spec. split.
  - intros [rest Hrest]. exists (rev rest).
    by rewrite <- (rev_involutive s), Hrest, rev_app_distr, rev_involutive.
  - intros [stem ->]. exists (rev stem). by rewrite rev_app_distr.
Qed.

Section LayoutFacts.
Context {U : Unicode} {P : Pillow} {W : Web}.
Variable self : PosterGenerator.



End LayoutFacts.


(** ** The name on the poster *)

Lemma ascii_upper_lower (c : N) : ascii_upper (ascii_lower c) = ascii_upper c.
Proof.
  unfold ascii_upper, ascii_lower.
  destruct (N.leb_spec 65 c); cbn; [destruct (N.leb_spec c 90); cbn|].
  - destruct (N.leb_spec 97 (c + 32)); [|lia]. destruct (N.leb_spec (c + 32) 122); [|lia].
    cbn. destruct (N.leb_spec 97 c); [lia|]. cbn. lia.
  - done.
  - done.
Qed.

Lemma upper_of_title (previous_is_cased : bool) (s : str) :
  ascii_upper <$> ascii_title previous_is_cased s = ascii_upper <$> s.
Proof.
  revert previous_is_cased. induction s as [|c s IH]; intros b; [done|].
  cbn. rewrite IH. by destruct b; rewrite ?ascii_upper_lower, ?ascii_upper_idemp.
Qed.

Lemma is_ascii_lower (c : N) : is_ascii c = true -> is_ascii (ascii_lower c) = true.
Proof.
  unfold is_ascii, ascii_lower. rewrite !N.ltb_lt. intros Hc.
  destruct (N.leb_spec 65 c); cbn; [destruct (N.leb_spec c 90); cbn|]; lia.
Qed.

Lemma title_is_ascii (previous_is_cased : bool) (s : str) :
  forallb is_ascii s = true -> forallb is_ascii (ascii_title previous_is_cased s) = true.
Proof.
  revert previous_is_cased. induction s as [|c s IH]; intros b; [done|].
  cbn. intros [Hc Hs]%andb_true_iff. rewrite IH by done.
  by destruct b; rewrite ?is_ascii_lower, ?is_ascii_upper.
Qed.

Lemma replace_is_ascii (a b : N) (s : str) :
  is_ascii b = true -> forallb is_ascii s = true -> forallb is_ascii (replace a b s) = true.
Proof.
  intros Hb. unfold replace. induction s as [|c s IH]; [done|].
  cbn. intros [Hc Hs]%andb_true_iff. rewrite IH by done.
  by destruct (c =? a)%N; rewrite ?Hb, ?Hc.
Qed.

Section NameFacts.
Context {U : Unicode} {T : Titlecase} {P : Pillow}.


End NameFacts.







